(** * Epimetheus dashboard: the view aggregation layer

    A shallow embedding of [frontend/src/utils/api.js] and of the handlers
    and derived views of [frontend/src/components/Dashboard.jsx], with the
    properties of the aggregation, of the time-age formatter, of the revert
    flow and of the history view.

    Conventions of the embedding.
    - A field of a remote payload that may be missing is an [option];
      [None] is JavaScript's [undefined].  Strings are the only scalar
      identifiers, so truthiness is "present and not the empty string".
    - A string is held as the bytes of its UTF-8 form; JavaScript counts a
      string in UTF-16 code units, and the one operation of the code that
      counts, [substring], is modelled on those units.
    - A timestamp is the number of milliseconds since the epoch that
      [new Date(x).getTime()] denotes, as a [Z]; a date that does not parse
      (NaN) is outside the model.
    - An asynchronous function is a value of [IO A]: how it settles
      (fulfilled or rejected) together with the events it caused (requests,
      console lines, dialogs), per task in program order.
    - The remote service, the clock and the confirmation dialog are the
      fields of an environment [Env]; an endpoint is a function of the URL
      that the code requests. *)

From stdpp Require Import gmap strings list fin_maps pretty sorting.
From Stdlib Require Import ZArith Lia Ascii.

(* ===================================================================== *)
(** ** JavaScript prelude *)
(* ===================================================================== *)

Module JS.

(** Truthiness of a possibly missing string. *)
Definition truthy (v : option string) : bool :=
  match v with
  | Some EmptyString => false
  | Some _ => true
  | None => false
  end.

(** [a || b]: the left operand when it is truthy, the right one otherwise. *)
Definition or (a b : option string) : option string :=
  if truthy a then a else b.

(** [`${v}`], also the conversion of a property key. *)
Definition toString (v : option string) : string :=
  match v with
  | Some s => s
  | None => "undefined"
  end.

(** [s.startsWith(p)]. *)
Definition startsWith (s p : string) : bool := String.prefix p s.

(** The number of bytes of the UTF-8 sequence that the byte [c] leads; a
    continuation byte out of place counts for itself. *)
Definition sequence_length (c : ascii) : nat :=
  match c with
  | Ascii _ _ _ _ _ _ _ false => 1
  | Ascii _ _ _ _ _ _ false true => 1
  | Ascii _ _ _ _ _ false true true => 2
  | Ascii _ _ _ _ false true true true => 3
  | Ascii _ _ _ _ true true true true => 4
  end.

(** The high half of the surrogate pair of the character with the four
    bytes [c0 c1 c2 c3], written as the three bytes of a lone code unit:
    what is left of the character when a cut falls inside its pair. *)
Definition high_surrogate (c0 c1 c2 c3 : ascii) : string :=
  let code_point := (N_of_ascii c0 mod 8 * 262144 + N_of_ascii c1 mod 64 * 4096
                     + N_of_ascii c2 mod 64 * 64 + N_of_ascii c3 mod 64)%N in
  let w := ((code_point - 65536) / 1024)%N in
  String (ascii_of_N 237)
    (String (ascii_of_N (160 + w / 64)) (String (ascii_of_N (128 + w mod 64)) "")).

(** [s.substring(0, n)]: the first [n] UTF-16 code units of [s], all of
    [s] when it is shorter.  A character of up to three bytes is one code
    unit, a character of four bytes is two. *)
Fixpoint substring0 (n : nat) (s : string) {struct s} : string :=
  match n, s with
  | 0, _ => ""
  | _, "" => ""
  | S n', String c0 rest =>
      match sequence_length c0, rest with
      | 2, String c1 r => String c0 (String c1 (substring0 n' r))
      | 3, String c1 (String c2 r) => String c0 (String c1 (String c2 (substring0 n' r)))
      | 4, String c1 (String c2 (String c3 r)) =>
          match n' with
          | 0 => high_surrogate c0 c1 c2 c3
          | S n'' => String c0 (String c1 (String c2 (String c3 (substring0 n'' r))))
          end
      | _, _ => String c0 (substring0 n' rest)
      end
  end.

(** [s.replace(pat, rep)] with a string pattern: the first occurrence
    only ([rep] has no [$] pattern at the call sites). *)
Fixpoint replace (pat rep s : string) : string :=
  if String.prefix pat s
  then rep +:+ String.substring (String.length pat) (String.length s - String.length pat) s
  else match s with
       | EmptyString => s
       | String c s' => String c (replace pat rep s')
       end.

(** [xs.find(p)]. *)
Fixpoint find {A} (p : A → bool) (xs : list A) : option A :=
  match xs with
  | [] => None
  | x :: xs' => if p x then Some x else find p xs'
  end.

(** [xs.sort(cmp)], stable as [Array.prototype.sort] is: an element goes in
    front of the first one it does not have to follow.  With a comparator
    that is a total preorder every stable sort returns this list. *)
Fixpoint sort_insert {A} (cmp : A → A → Z) (x : A) (l : list A) : list A :=
  match l with
  | [] => [x]
  | y :: l' => if (cmp x y <=? 0)%Z then x :: y :: l' else y :: sort_insert cmp x l'
  end.

Fixpoint sort {A} (cmp : A → A → Z) (l : list A) : list A :=
  match l with
  | [] => []
  | x :: l' => sort_insert cmp x (sort cmp l')
  end.

(** Thrown values. *)
Inductive exn :=
| Error (message : string)
| TypeError (message : string)
| SyntaxError (message : string).

Definition message (e : exn) : string :=
  match e with
  | Error m | TypeError m | SyntaxError m => m
  end.

(** How a promise settles. *)
Inductive result (A : Type) :=
| Fulfilled (a : A)
| Rejected (e : exn).
Arguments Fulfilled {A} a.
Arguments Rejected {A} e.

(** What a task does to the outside. *)
Inductive event :=
| Fetch (method url : string)
| ConsoleError (label : string) (e : exn)
| ConsoleDebug (label : string) (e : exn)
| Confirm (question : string)
| Alert (text : string).

Record IO (A : Type) := Task { outcome : result A; trace : list event }.
Arguments Task {A} outcome trace.
Arguments outcome {A} _.
Arguments trace {A} _.

Definition ret {A} (a : A) : IO A := Task (Fulfilled a) [].
Definition throw {A} (e : exn) : IO A := Task (Rejected e) [].
Definition emit (ev : event) : IO unit := Task (Fulfilled tt) [ev].
Definition settle {A} (r : result A) : IO A := Task r [].

Definition bind {A B} (m : IO A) (k : A → IO B) : IO B :=
  match outcome m with
  | Fulfilled a => Task (outcome (k a)) (trace m ++ trace (k a))
  | Rejected e => Task (Rejected e) (trace m)
  end.

(** [try { m } catch (e) { h e }]. *)
Definition try_catch {A} (m : IO A) (h : exn → IO A) : IO A :=
  match outcome m with
  | Fulfilled a => m
  | Rejected e => Task (outcome (h e)) (trace m ++ trace (h e))
  end.

(** [Promise.all]: every task runs; the result is rejected as soon as one
    of them is. *)
Fixpoint all_outcomes {A} (rs : list (result A)) : result (list A) :=
  match rs with
  | [] => Fulfilled []
  | Fulfilled a :: rs' =>
      match all_outcomes rs' with
      | Fulfilled l => Fulfilled (a :: l)
      | Rejected e => Rejected e
      end
  | Rejected e :: _ => Rejected e
  end.

Definition Promise_all {A} (ms : list (IO A)) : IO (list A) :=
  Task (all_outcomes (outcome <$> ms)) (concat (trace <$> ms)).

Definition Promise_all2 {A B} (m1 : IO A) (m2 : IO B) : IO (A * B) :=
  Task (match outcome m1, outcome m2 with
        | Fulfilled a, Fulfilled b => Fulfilled (a, b)
        | Rejected e, _ => Rejected e
        | _, Rejected e => Rejected e
        end)
       (trace m1 ++ trace m2).

(** An HTTP response: [response.ok] and what [response.json()] gives. *)
Record ErrorBody := { detail : option string }.

Inductive response (A : Type) :=
| Ok (json : result A)
| NotOk (json : result ErrorBody).
Arguments Ok {A} json.
Arguments NotOk {A} json.

(** [fetch(url, { method })] against an endpoint: the request goes out,
    and the network delivers a response or fails. *)
Definition fetch {A} (endpoint : string → result (response A))
    (method url : string) : IO (response A) :=
  Task (endpoint url) [Fetch method url].

Definition console_error (label : string) (e : exn) : IO unit :=
  emit (ConsoleError label e).
Definition console_debug (label : string) (e : exn) : IO unit :=
  emit (ConsoleDebug label e).
Definition alert (text : string) : IO unit := emit (Alert text).

End JS.

Import JS.

Notation "'let*' x ':=' m 'in' k" := (JS.bind m (fun x => k))
  (at level 10, x pattern, m at level 100, k at level 200).
Notation "m ';;' k" := (JS.bind m (fun _ => k))
  (at level 100, k at level 200, right associativity).
Notation "a '|||' b" := (JS.or a b) (at level 50, left associativity).

(* ===================================================================== *)
(** ** Remote payloads and the view model *)
(* ===================================================================== *)

(** An entry of [GET /documents]. *)
Module Doc.
Record t := mk {
  id : option string;
  doc_id : option string;
  name : option string;
  modified_time : option Z
}.
End Doc.

(** An entry of [GET /documents/metadata/all]. *)
Module Meta.
Record t := mk {
  doc_id : option string;
  name : option string;
  tags : option (list string);
  description : option string
}.
(** The object [{}]. *)
Definition empty : t := mk None None None None.
End Meta.

(** What a property of [metadataMap] can hold, and so what [metadata] can
    be in a document's task: a metadata record (or the object [{}]), a
    function that every object inherits, [Object.prototype] itself, or a
    string or array that is a property of a metadata record. *)
Module Metadata.
Inductive t :=
| Plain (meta : Meta.t)
| Method (name : string)
| ObjectPrototype
| Text (s : string)
| Items (l : list string).

(** Every object is truthy; of the strings, the empty one is not. *)
Definition is_truthy (v : t) : bool :=
  match v with
  | Text s => truthy (Some s)
  | _ => true
  end.

(** What reading [doc_id], [name], [tags] and [description] of the value
    gives: a function has a [name], and none of the others; strings, arrays
    and [Object.prototype] have none of the four. *)
Definition properties (v : t) : Meta.t :=
  match v with
  | Plain meta => meta
  | Method name => Meta.mk None (Some name) None None
  | ObjectPrototype | Text _ | Items _ => Meta.empty
  end.

(** [v || {}] *)
Definition or_empty (v : option t) : t :=
  match v with
  | Some v => if is_truthy v then v else Plain Meta.empty
  | None => Plain Meta.empty
  end.
End Metadata.

(** The object [metadataMap]: a plain object, [{}] at first.  Its own
    properties are metadata records; its prototype is [Object.prototype]
    ([None]) until a record is assigned to ["__proto__"], which makes that
    record the prototype.  The properties of a record are its typed
    fields. *)
Module MetadataMap.
Record t := mk {
  own : gmap string Meta.t;
  prototype : option Meta.t
}.

(** [{}] *)
Definition empty : t := mk ∅ None.

(** The functions of [Object.prototype] by property key; the function
    under ["constructor"] is [Object], the others carry their key as
    name. *)
Definition Object_prototype (key : string) : option Metadata.t :=
  if decide (key = "constructor") then Some (Metadata.Method "Object")
  else if decide (key ∈ ["hasOwnProperty"; "isPrototypeOf"; "propertyIsEnumerable";
                         "toLocaleString"; "toString"; "valueOf";
                         "__defineGetter__"; "__defineSetter__";
                         "__lookupGetter__"; "__lookupSetter__"])
  then Some (Metadata.Method key)
  else None.

(** [meta[key]] as an own property of a record. *)
Definition field (meta : Meta.t) (key : string) : option Metadata.t :=
  if decide (key = "doc_id") then Metadata.Text <$> Meta.doc_id meta
  else if decide (key = "name") then Metadata.Text <$> Meta.name meta
  else if decide (key = "tags") then Metadata.Items <$> Meta.tags meta
  else if decide (key = "description") then Metadata.Text <$> Meta.description meta
  else None.

(** [metadataMap[key] = meta]: the setter of ["__proto__"] replaces the
    prototype; every other key becomes an own property. *)
Definition set (key : string) (meta : Meta.t) (metadataMap : t) : t :=
  if decide (key = "__proto__")
  then mk (own metadataMap) (Some meta)
  else mk (<[key := meta]> (own metadataMap)) (prototype metadataMap).

(** [metadataMap[key]]: an own property, or else what the prototype chain
    has: the prototype itself under ["__proto__"], a property of the record
    that is the prototype, a function of [Object.prototype]. *)
Definition get (metadataMap : t) (key : string) : option Metadata.t :=
  match own metadataMap !! key with
  | Some meta => Some (Metadata.Plain meta)
  | None =>
      if decide (key = "__proto__")
      then Some (match prototype metadataMap with
                 | Some meta => Metadata.Plain meta
                 | None => Metadata.ObjectPrototype
                 end)
      else match prototype metadataMap ≫= (fun meta => field meta key) with
           | Some v => Some v
           | None => Object_prototype key
           end
  end.
End MetadataMap.

(** An entry of [GET /versions/{id}]. *)
Module VersionRecord.
Record meta := mk_meta { chars_added : option Z }.
Record t := mk {
  version_id : option string;
  created_at : Z;
  metadata : option meta
}.
End VersionRecord.

(** A version as the dashboard shows it. *)
Module Version.
Record t := mk {
  version : Z;
  versionId : option string;
  timestamp : Z;
  charsAdded : Z
}.
End Version.

(** The per-document view model. *)
Module Channel.
Record t := mk {
  id : option string;
  name : string;
  status : string;
  messageCount : Z;
  lastUpdate : string;
  docUrl : string;
  actionCount : nat;
  slackChannelId : string;
  versions : list Version.t;
  metadata : Metadata.t
}.
End Channel.

Record DocumentsResponse := { documents : option (list Doc.t) }.
Record MetadataResponse := { meta_documents : option (list Meta.t); meta_count : option Z }.
Record VersionsResponse := { versions : option (list VersionRecord.t) }.
Record MessageCount := { count : option Z }.
Record RevertResponse := { revert_message : option string }.

(** The build-time variables, the remote service, the clock and the answer
    of the confirmation dialog.  An endpoint answers a URL with a network
    failure or a response; [Date_now i] is the reading of [Date.now()] that
    the task of the document at position [i] gets. *)
Record Env := {
  VITE_API_BASE_URL : option string;
  PROD : bool;
  GET_documents : string → result (response DocumentsResponse);
  GET_metadata_all : string → result (response MetadataResponse);
  GET_versions : string → result (response VersionsResponse);
  GET_messages_count : string → result (response MessageCount);
  POST_revert : string → result (response RevertResponse);
  Date_now : nat → Z;
  window_confirm : string → bool
}.

(* ===================================================================== *)
(** ** [frontend/src/utils/api.js] *)
(* ===================================================================== *)

Module Api.

(** [VITE_API_BASE_URL || (PROD ? '/api/v1' : 'http://localhost:8000/api/v1')] *)
Definition API_BASE_URL (env : Env) : string :=
  toString (VITE_API_BASE_URL env |||
            Some (if PROD env then "/api/v1" else "http://localhost:8000/api/v1")).

Definition getMessageCount (env : Env) (teamId : option string) : IO MessageCount :=
  try_catch
    (let url := if truthy teamId
                then API_BASE_URL env +:+ "/messages/count?team_id=" +:+ toString teamId
                else API_BASE_URL env +:+ "/messages/count" in
     let* response := fetch (GET_messages_count env) "GET" url in
     match response with
     | NotOk _ => throw (Error "Failed to fetch message count")
     | Ok json => settle json
     end)
    (fun error =>
       console_error "Error fetching message count:" error ;;
       ret {| count := Some 0%Z |}).

Definition getDocuments (env : Env) (folderId : option string) : IO DocumentsResponse :=
  try_catch
    (let url := if truthy folderId
                then API_BASE_URL env +:+ "/documents?folder_id=" +:+ toString folderId
                else API_BASE_URL env +:+ "/documents" in
     let* response := fetch (GET_documents env) "GET" url in
     match response with
     | NotOk _ => throw (Error "Failed to fetch documents")
     | Ok json => settle json
     end)
    (fun error =>
       console_error "Error fetching documents:" error ;;
       ret {| documents := Some [] |}).

Definition getAllMetadata (env : Env) (folderId : option string) : IO MetadataResponse :=
  try_catch
    (let url := if truthy folderId
                then API_BASE_URL env +:+ "/documents/metadata/all?folder_id=" +:+ toString folderId
                else API_BASE_URL env +:+ "/documents/metadata/all" in
     let* response := fetch (GET_metadata_all env) "GET" url in
     match response with
     | NotOk _ => throw (Error "Failed to fetch metadata")
     | Ok json => settle json
     end)
    (fun error =>
       console_error "Error fetching metadata:" error ;;
       ret {| meta_documents := Some []; meta_count := Some 0%Z |}).

Definition getVersionHistory (env : Env) (docId : option string) : IO VersionsResponse :=
  try_catch
    (let* response :=
       fetch (GET_versions env) "GET" (API_BASE_URL env +:+ "/versions/" +:+ toString docId) in
     match response with
     | NotOk _ => throw (Error "Failed to fetch version history")
     | Ok json => settle json
     end)
    (fun error =>
       console_error "Error fetching version history:" error ;;
       throw error).

Definition revertVersion (env : Env) (docId : option string) (versionId : string)
  : IO RevertResponse :=
  try_catch
    (let* response :=
       fetch (POST_revert env) "POST"
         (API_BASE_URL env +:+ "/revert/" +:+ toString docId +:+ "/" +:+ versionId) in
     match response with
     | NotOk json =>
         let* error := settle json in
         throw (Error (toString (detail error ||| Some "Failed to revert version")))
     | Ok json => settle json
     end)
    (fun error =>
       console_error "Error reverting version:" error ;;
       throw error).

(** [formatTimeAgo(date)], with the reading [now] of [Date.now()];
    [Math.floor] of a quotient is [Z.div]. *)
Definition formatTimeAgo (now : Z) (date : Z) : string :=
  let seconds := ((now - date) / 1000)%Z in
  if (seconds <? 60)%Z then "just now" else
  let minutes := (seconds / 60)%Z in
  if (minutes <? 60)%Z
  then pretty minutes +:+ " minute" +:+ (if negb (minutes =? 1)%Z then "s" else "") +:+ " ago"
  else
  let hours := (minutes / 60)%Z in
  if (hours <? 24)%Z
  then pretty hours +:+ " hour" +:+ (if negb (hours =? 1)%Z then "s" else "") +:+ " ago"
  else
  let days := (hours / 24)%Z in
  pretty days +:+ " day" +:+ (if negb (days =? 1)%Z then "s" else "") +:+ " ago".

(** The callback of [versionResponse.versions.map((v, idx) => ...)]. *)
Definition version_entry (idx : nat) (v : VersionRecord.t) : Version.t :=
  {| Version.version := Z.of_nat idx + 1;
     Version.versionId := VersionRecord.version_id v;
     Version.timestamp := VersionRecord.created_at v;
     Version.charsAdded :=
       match VersionRecord.metadata v with
       | Some m => default 0%Z (VersionRecord.chars_added m)
       | None => 0%Z
       end |}.

(** [metadata.tags?.find(t => typeof t === 'string' && t.startsWith('slack:'))];
    the tags are strings by their type. *)
Definition slackTag (metadata : Meta.t) : option string :=
  match Meta.tags metadata with
  | Some tags => find (fun t => startsWith t "slack:") tags
  | None => None
  end.

(** [slackTag ? slackTag.replace('slack:', '') : ''] *)
Definition slackChannelId (metadata : Meta.t) : string :=
  match slackTag metadata with
  | Some t => if truthy (Some t) then replace "slack:" "" t else ""
  | None => ""
  end.

(** [`Document ${docId.substring(0, 8)}`]: reading [substring] of
    [undefined] throws. *)
Definition placeholder (docId : option string) : result string :=
  match docId with
  | Some s => Fulfilled ("Document " +:+ substring0 8 s)
  | None => Rejected (TypeError "Cannot read properties of undefined (reading 'substring')")
  end.

(** [metadata.name || doc.name || `Document ${docId.substring(0, 8)}`] *)
Definition resolved_name (metadata : Meta.t) (doc : Doc.t) (docId : option string)
  : result string :=
  let named := Meta.name metadata ||| Doc.name doc in
  if truthy named then Fulfilled (toString named) else placeholder docId.

(** The [metadataMap] filled by [metadataList.forEach]: a later record
    replaces an earlier one with the same key. *)
Definition metadata_map (metadataList : list Meta.t) : MetadataMap.t :=
  foldl (fun metadataMap meta => MetadataMap.set (toString (Meta.doc_id meta)) meta metadataMap)
        MetadataMap.empty metadataList.

(** [let versions = []; try { ... } catch (error) { ... }]: the version
    history of one document, empty when it cannot be fetched. *)
Definition fetched_versions (env : Env) (docId : option string) : IO (list Version.t) :=
  try_catch
    (let* versionResponse := getVersionHistory env docId in
     ret (imap version_entry (default [] (versions versionResponse))))
    (fun error =>
       console_debug ("Could not fetch versions for " +:+ toString docId +:+ ":") error ;;
       ret []).

(** The body of [documents.map(async (doc) => ...)], for the document at
    position [i].  [metadata] is whatever the map has under the key, a
    record or not; [metadata.name] and [metadata.tags] are read off
    [Metadata.properties metadata]. *)
Definition document_task (env : Env) (metadataMap : MetadataMap.t)
    (i : nat) (doc : Doc.t) : IO Channel.t :=
  let docId := Doc.id doc ||| Doc.doc_id doc in
  let metadata := Metadata.or_empty (MetadataMap.get metadataMap (toString docId)) in
  let* versions := fetched_versions env docId in
  let* name := settle (resolved_name (Metadata.properties metadata) doc docId) in
  ret {| Channel.id := docId;
         Channel.name := name;
         Channel.status := "active";
         Channel.messageCount := 0;
         Channel.lastUpdate :=
           match Doc.modified_time doc with
           | Some t => formatTimeAgo (Date_now env i) t
           | None => "never"
           end;
         Channel.docUrl := "https://docs.google.com/document/d/" +:+ toString docId;
         Channel.actionCount := length versions;
         Channel.slackChannelId := slackChannelId (Metadata.properties metadata);
         Channel.versions := versions;
         Channel.metadata := metadata |}.

Definition getChannelsData (env : Env) (folderId : option string) : IO (list Channel.t) :=
  try_catch
    (let* (documentsResponse, metadataResponse) :=
       Promise_all2 (getDocuments env folderId) (getAllMetadata env folderId) in
     let documents := default [] (documents documentsResponse) in
     let metadataList := default [] (meta_documents metadataResponse) in
     let metadataMap := metadata_map metadataList in
     Promise_all (imap (document_task env metadataMap) documents))
    (fun error =>
       console_error "Error fetching channels data:" error ;;
       throw error).

End Api.

(* ===================================================================== *)
(** ** [frontend/src/components/Dashboard.jsx] *)
(* ===================================================================== *)

Module Dashboard.

(** The [useState] cells of [EpimetheusDashboard]. *)
Record State := {
  activeTab : string;
  documents : list Channel.t;
  selectedDocumentForHistory : option string;
  loading : bool;
  error : option string;
  refreshing : bool;
  totalMessageCount : Z
}.

Definition setActiveTab (v : string) (s : State) : State :=
  {| activeTab := v; documents := documents s;
     selectedDocumentForHistory := selectedDocumentForHistory s;
     loading := loading s; error := error s; refreshing := refreshing s;
     totalMessageCount := totalMessageCount s |}.

Definition setDocuments (v : list Channel.t) (s : State) : State :=
  {| activeTab := activeTab s; documents := v;
     selectedDocumentForHistory := selectedDocumentForHistory s;
     loading := loading s; error := error s; refreshing := refreshing s;
     totalMessageCount := totalMessageCount s |}.

Definition setSelectedDocumentForHistory (v : option string) (s : State) : State :=
  {| activeTab := activeTab s; documents := documents s;
     selectedDocumentForHistory := v;
     loading := loading s; error := error s; refreshing := refreshing s;
     totalMessageCount := totalMessageCount s |}.

Definition setLoading (v : bool) (s : State) : State :=
  {| activeTab := activeTab s; documents := documents s;
     selectedDocumentForHistory := selectedDocumentForHistory s;
     loading := v; error := error s; refreshing := refreshing s;
     totalMessageCount := totalMessageCount s |}.

Definition setError (v : option string) (s : State) : State :=
  {| activeTab := activeTab s; documents := documents s;
     selectedDocumentForHistory := selectedDocumentForHistory s;
     loading := loading s; error := v; refreshing := refreshing s;
     totalMessageCount := totalMessageCount s |}.

Definition setTotalMessageCount (v : Z) (s : State) : State :=
  {| activeTab := activeTab s; documents := documents s;
     selectedDocumentForHistory := selectedDocumentForHistory s;
     loading := loading s; error := error s; refreshing := refreshing s;
     totalMessageCount := v |}.

(** Modelled from the spec: the dashboard imports [getDocumentsData] from
    [utils/api], which the module under [src/] does not export; the refresh
    is specified as a full re-run of the aggregation, here without a folder. *)
Definition getDocumentsData (env : Env) : IO (list Channel.t) :=
  Api.getChannelsData env None.

Definition confirm (env : Env) (question : string) : IO bool :=
  Task (Fulfilled (window_confirm env question)) [Confirm question].

(** [fetchDocuments]: the [finally] block runs on both paths. *)
Definition fetchDocuments (env : Env) (s : State) : IO State :=
  let s := setError None (setLoading true s) in
  try_catch
    (let* (documentsData, messageCountData) :=
       Promise_all2 (getDocumentsData env) (Api.getMessageCount env None) in
     ret (setLoading false
            (setTotalMessageCount (default 0%Z (count messageCountData))
               (setDocuments documentsData s))))
    (fun err =>
       console_error "Error fetching documents:" err ;;
       ret (setLoading false
              (setDocuments []
                 (setError
                    (Some "Failed to load documents. Please check if the backend API is running.")
                    s)))).

Definition handleRevert (documentId : option string) (s : State) : State :=
  setActiveTab "history" (setSelectedDocumentForHistory documentId s).

(** [handleRevertVersion(documentId, version, versionId)] *)
Definition handleRevertVersion (env : Env) (s : State)
    (documentId : option string) (version : Z) (versionId : option string) : IO State :=
  let* confirmed :=
    confirm env ("Are you sure you want to revert to version " +:+ pretty version +:+ "?") in
  if negb confirmed then ret s else
  try_catch
    (let idToUse := toString (versionId ||| Some (pretty version)) in
     Api.revertVersion env documentId idToUse ;;
     let* s' := fetchDocuments env s in
     alert ("Successfully reverted to version " +:+ pretty version) ;;
     ret s')
    (fun err =>
       console_error "Error reverting version:" err ;;
       alert ("Failed to revert version: " +:+ message err) ;;
       ret s).

(** An element of the history list: [{ ...v, documentId, documentName }]. *)
Record HistoryEntry := {
  version : Z;
  versionId : option string;
  timestamp : Z;
  charsAdded : Z;
  documentId : option string;
  documentName : string
}.

Definition history_entry (doc : Channel.t) (v : Version.t) : HistoryEntry :=
  {| version := Version.version v;
     versionId := Version.versionId v;
     timestamp := Version.timestamp v;
     charsAdded := Version.charsAdded v;
     documentId := Channel.id doc;
     documentName := Channel.name doc |}.

(** The list [allVersions] of the history tab; [doc.versions || []] is
    [doc.versions], an array being truthy. *)
Definition allVersions (selectedDocumentForHistory : option string)
    (documents : list Channel.t) : list HistoryEntry :=
  let documentsToShow :=
    if truthy selectedDocumentForHistory
    then filter (fun doc => Channel.id doc = selectedDocumentForHistory) documents
    else documents in
  sort (fun a b => (timestamp b - timestamp a)%Z)
       (flat_map (fun doc => map (history_entry doc) (Channel.versions doc)) documentsToShow).

End Dashboard.

(* ===================================================================== *)
(** ** Vocabulary of the statements *)
(* ===================================================================== *)

(** The payload of a fetch that went through: the network delivered a
    response, its status was a success and its body parsed. *)
Definition delivered {A} (r : result (response A)) : option A :=
  match r with
  | Fulfilled (Ok (Fulfilled a)) => Some a
  | _ => None
  end.

(** The document list and the metadata list that reach the aggregation:
    what [documentsResponse.documents || []] and
    [metadataResponse.documents || []] evaluate to. *)
Definition documents_of (env : Env) (folderId : option string) : list Doc.t :=
  match outcome (Api.getDocuments env folderId) with
  | Fulfilled r => default [] (documents r)
  | Rejected _ => []
  end.

Definition metadata_of (env : Env) (folderId : option string) : list Meta.t :=
  match outcome (Api.getAllMetadata env folderId) with
  | Fulfilled r => default [] (meta_documents r)
  | Rejected _ => []
  end.

(** The identifier of a document as the aggregation reads it. *)
Definition docId_of (doc : Doc.t) : option string := Doc.id doc ||| Doc.doc_id doc.

(** The URLs requested with a given method, in order. *)
Definition requests (method : string) (tr : list event) : list string :=
  omap (fun ev => match ev with
                  | Fetch m url => if decide (m = method) then Some url else None
                  | _ => None
                  end) tr.

(** The same world, except for the answer to [GET /versions/{docId}]. *)
Definition with_versions (env : Env) (docId : option string)
    (r : result (response VersionsResponse)) : Env :=
  {| VITE_API_BASE_URL := VITE_API_BASE_URL env;
     PROD := PROD env;
     GET_documents := GET_documents env;
     GET_metadata_all := GET_metadata_all env;
     GET_versions := fun url =>
       if decide (url = Api.API_BASE_URL env +:+ "/versions/" +:+ toString docId)
       then r else GET_versions env url;
     GET_messages_count := GET_messages_count env;
     POST_revert := POST_revert env;
     Date_now := Date_now env;
     window_confirm := window_confirm env |}.

(** The same world, except for the metadata endpoint. *)
Definition with_metadata (env : Env)
    (endpoint : string → result (response MetadataResponse)) : Env :=
  {| VITE_API_BASE_URL := VITE_API_BASE_URL env;
     PROD := PROD env;
     GET_documents := GET_documents env;
     GET_metadata_all := endpoint;
     GET_versions := GET_versions env;
     GET_messages_count := GET_messages_count env;
     POST_revert := POST_revert env;
     Date_now := Date_now env;
     window_confirm := window_confirm env |}.

(** An event that is not a POST request. *)
Definition quiet (ev : event) : Prop := requests "POST" [ev] = [].

(* ===================================================================== *)
(** ** More of the JavaScript library *)
(* ===================================================================== *)

Module JSText.
Import Stdlib.Strings.Ascii.






End JSText.

(* ===================================================================== *)
(** ** [frontend/src/utils/api.js]: the calls that change the remote state,
       the search and the stored user id *)
(* ===================================================================== *)

Module ApiCalls.

(** A response body that the dashboard passes on without reading it. *)
Record Json := { json_text : string }.

(** The service with the endpoints of this part; the request body of
    [POST /trigger] is [{ doc_id }]. *)
Record Service := {
  core : Env;
  POST_trigger : string → option string → result (response Json);
  POST_drive_mapping_sync : string → result (response Json);
  GET_documents_search : string → result (response Json)
}.

(** [localStorage.getItem('epimetheus_userId')] *)
Definition getUserId (localStorage : gmap string string) : option string :=
  localStorage !! "epimetheus_userId".

Definition forceUpdate (svc : Service) (docId : option string) : IO Json :=
  try_catch
    (let* response :=
       fetch (fun url => POST_trigger svc url docId) "POST"
         (Api.API_BASE_URL (core svc) +:+ "/trigger") in
     match response with
     | NotOk json =>
         let* error := settle json in
         throw (Error (toString (detail error ||| Some "Failed to force update")))
     | Ok json => settle json
     end)
    (fun error =>
       console_error "Error forcing update:" error ;;
       throw error).


Definition syncDriveFolder (svc : Service) (folderId : option string) : IO Json :=
  try_catch
    (let url := if truthy folderId
                then Api.API_BASE_URL (core svc) +:+ "/drive/mapping/sync?folder_id="
                       +:+ toString folderId
                else Api.API_BASE_URL (core svc) +:+ "/drive/mapping/sync" in
     let* response := fetch (POST_drive_mapping_sync svc) "POST" url in
     match response with
     | NotOk json =>
         let* error := settle json in
         throw (Error (toString (detail error ||| Some "Failed to sync Drive folder")))
     | Ok json => settle json
     end)
    (fun error =>
       console_error "Error syncing Drive folder:" error ;;
       throw error).

End ApiCalls.

(* ===================================================================== *)
(** ** The dashboard component: identity, the other handlers, the
       counters of the overview *)
(* ===================================================================== *)

Module Handlers.
Import Dashboard.

(** [`user_${Date.now()}_${Math.random().toString(36).substr(2, 9)}`], with
    the clock reading [now] and the text [random36] that
    [Math.random().toString(36)] gave. *)
Definition generateUserId (now : Z) (random36 : string) : string :=
  "user_" +:+ pretty now +:+ "_" +:+ String.substring 2 9 random36.

(** [getUserId]: the stored id, created on first use; the result and the
    storage afterwards. *)
Definition getUserId (localStorage : gmap string string) (now : Z) (random36 : string)
  : string * gmap string string :=
  let userId := localStorage !! "epimetheus_userId" in
  if negb (truthy userId)
  then let userId := generateUserId now random36 in
       (userId, <["epimetheus_userId" := userId]> localStorage)
  else (toString userId, localStorage).

Definition setRefreshing (v : bool) (s : State) : State :=
  {| activeTab := activeTab s; documents := documents s;
     selectedDocumentForHistory := selectedDocumentForHistory s;
     loading := loading s; error := error s; refreshing := v;
     totalMessageCount := totalMessageCount s |}.

Definition refreshDocuments (env : Env) (s : State) : IO State :=
  let s := setRefreshing true s in
  let* s := fetchDocuments env s in
  ret (setRefreshing false s).

(** [handleResyncDrive]: the [finally] block runs on both paths. *)
Definition handleResyncDrive (svc : ApiCalls.Service) (s : State) : IO State :=
  let* s :=
    try_catch
      (let s := setRefreshing true s in
       ApiCalls.syncDriveFolder svc None ;;
       let* s := fetchDocuments (ApiCalls.core svc) s in
       alert "Google Drive documents synced successfully!" ;;
       ret s)
      (fun err =>
         console_error "Error syncing Drive:" err ;;
         alert ("Failed to sync Drive: " +:+ message err) ;;
         ret (setRefreshing true s)) in
  ret (setRefreshing false s).

Definition handleForceUpdate (svc : ApiCalls.Service) (s : State)
    (documentId : option string) : IO State :=
  try_catch
    (ApiCalls.forceUpdate svc documentId ;;
     let* updatedDocuments := getDocumentsData (ApiCalls.core svc) in
     let s := setDocuments updatedDocuments s in
     alert "Document update triggered successfully!" ;;
     ret s)
    (fun err =>
       console_error "Error forcing update:" err ;;
       alert ("Failed to trigger update: " +:+ message err) ;;
       ret s).

Definition handleDeleteDocument (env : Env) (s : State) (documentId : option string)
  : IO State :=
  let* confirmed := confirm env "Are you sure you want to remove this document from view?" in
  if confirmed
  then ret (setDocuments (filter (fun doc => Channel.id doc ≠ documentId) (documents s)) s)
  else ret s.

(** The three counters of the overview:
    [documents.length],
    [documents.filter(doc => doc.status === 'active').length] and
    [documents.reduce((sum, doc) => sum + (doc.versions?.length || 0), 0)]. *)
Definition trackedDocuments (documents : list Channel.t) : nat := length documents.

Definition activeDocuments (documents : list Channel.t) : nat :=
  length (filter (fun doc => Channel.status doc = "active") documents).

Definition totalVersions (documents : list Channel.t) : nat :=
  foldl (fun sum doc => sum + length (Channel.versions doc)) 0 documents.

(** The number shown on a document card,
    [document.actionCount || document.versions?.length || 0], and the line
    under it. *)
Definition shownActionCount (document : Channel.t) : nat :=
  if negb (Channel.actionCount document =? 0) then Channel.actionCount document
  else length (Channel.versions document).

Definition updatedLine (document : Channel.t) : string :=
  "Document has been updated " +:+ pretty (shownActionCount document) +:+ " time"
    +:+ (if negb (Channel.actionCount document =? 1) then "s" else "").

End Handlers.

(* ===================================================================== *)
(** ** [frontend/src/components/Dashboard.jsx]: the channel list kept in
       the browser *)
(* ===================================================================== *)

Module Legacy.

Record entry := {
  version : Z;
  timestamp : Z;
  charsAdded : Z
}.

Record channel := {
  id : Z;
  name : string;
  status : string;
  messageCount : Z;
  lastUpdate : string;
  docUrl : string;
  threshold : Z;
  currentChars : Z;
  slackChannelId : string;
  versions : option (list entry)
}.

Record formData := {
  channelName : string;
  form_docUrl : string;
  form_slackChannelId : option string;
  form_threshold : Z
}.

(** The demo data that [loadChannels] returns when nothing is stored;
    [clock k] is the reading of the [k]-th call of [Date.now()]. *)
Definition defaultChannels (clock : nat → Z) : list channel :=
  [ {| id := 1; name := "#engineering-docs"; status := "active"; messageCount := 247;
       lastUpdate := "2 hours ago";
       docUrl := "https://docs.google.com/document/d/example1";
       threshold := 10000; currentChars := 7234; slackChannelId := "";
       versions := Some
         [ {| version := 3; timestamp := clock 0%nat - 10800000; charsAdded := 2340 |};
           {| version := 2; timestamp := clock 1%nat - 21600000; charsAdded := 1890 |};
           {| version := 1; timestamp := clock 2%nat - 32400000; charsAdded := 1520 |} ] |};
    {| id := 2; name := "#product-specs"; status := "active"; messageCount := 156;
       lastUpdate := "5 hours ago";
       docUrl := "https://docs.google.com/document/d/example2";
       threshold := 10000; currentChars := 3421; slackChannelId := "";
       versions := Some
         [ {| version := 2; timestamp := clock 3%nat - 18000000; charsAdded := 2100 |};
           {| version := 1; timestamp := clock 4%nat - 36000000; charsAdded := 1321 |} ] |} ]%Z.

(** [(ch.versions?.[0]?.version || 0) + 1] *)
Definition next_number (ch : channel) : Z :=
  match versions ch with
  | Some (v :: _) => version v + 1
  | _ => 0 + 1
  end%Z.

(** [handleForceUpdate(channelId)]: the simulated update; [now] is the
    clock reading taken for a channel that matches. *)
Definition force_update (now : Z) (ch : channel) : channel :=
  {| id := id ch; name := name ch; status := status ch;
     messageCount := messageCount ch + 1;
     lastUpdate := "just now";
     docUrl := docUrl ch; threshold := threshold ch;
     currentChars := 0;
     slackChannelId := slackChannelId ch;
     versions := Some ({| version := next_number ch; timestamp := now;
                          charsAdded := currentChars ch |}
                         :: default [] (versions ch)) |}.

Definition handleForceUpdate (clock : nat → Z) (channelId : Z) (channels : list channel)
  : list channel :=
  imap (fun i ch => if decide (id ch = channelId) then force_update (clock i) ch else ch)
       channels.

(** [handleAddChannel(formData)], on the channel list: the new channel takes
    the clock reading as id and the default threshold, not the threshold of
    the form. *)
Definition handleAddChannel (now : Z) (defaultThreshold : Z) (data : formData)
    (channels : list channel) : list channel :=
  let newChannel :=
    {| id := now; name := channelName data; status := "active"; messageCount := 0;
       lastUpdate := "never"; docUrl := form_docUrl data;
       threshold := defaultThreshold; currentChars := 0;
       slackChannelId := toString (form_slackChannelId data ||| Some "");
       versions := Some [] |} in
  channels ++ [newChannel].

(** [handleDeleteChannel(channelId)], with the answer of the confirmation
    dialog. *)
Definition handleDeleteChannel (confirmed : bool) (channelId : Z) (channels : list channel)
  : list channel :=
  if confirmed then filter (fun ch => id ch ≠ channelId) channels else channels.

(** One user action on the channel list. *)
Inductive action :=
| ForceUpdate (clock : nat → Z) (channelId : Z)
| AddChannel (now : Z) (defaultThreshold : Z) (data : formData)
| DeleteChannel (confirmed : bool) (channelId : Z).

Definition perform (a : action) (channels : list channel) : list channel :=
  match a with
  | ForceUpdate clock channelId => handleForceUpdate clock channelId channels
  | AddChannel now defaultThreshold data => handleAddChannel now defaultThreshold data channels
  | DeleteChannel confirmed channelId => handleDeleteChannel confirmed channelId channels
  end.

Definition run (actions : list action) (channels : list channel) : list channel :=
  foldl (fun cs a => perform a cs) channels actions.

(** The version numbers of a channel count down to 1, newest first. *)
Fixpoint counts_down (vs : list entry) : Prop :=
  match vs with
  | [] => True
  | v :: vs' => version v = (Z.of_nat (length vs') + 1)%Z ∧ counts_down vs'
  end.

(** The characters a channel accounts for: those of its versions and those
    not yet written to the document. *)
Definition accounted_chars (ch : channel) : Z :=
  (currentChars ch + foldr (fun v sum => charsAdded v + sum) 0 (default [] (versions ch)))%Z.

End Legacy.

(* ===================================================================== *)
(** ** More vocabulary *)
(* ===================================================================== *)

(** The same world, except for the message-count endpoint. *)
Definition with_messages_count (env : Env)
    (endpoint : string → result (response MessageCount)) : Env :=
  {| VITE_API_BASE_URL := VITE_API_BASE_URL env;
     PROD := PROD env;
     GET_documents := GET_documents env;
     GET_metadata_all := GET_metadata_all env;
     GET_versions := GET_versions env;
     GET_messages_count := endpoint;
     POST_revert := POST_revert env;
     Date_now := Date_now env;
     window_confirm := window_confirm env |}.

(** The texts of the alerts, in order. *)
Definition alerts (tr : list event) : list string :=
  omap (fun ev => match ev with Alert text => Some text | _ => None end) tr.

(** What a read of the remote state may leave in the trace: GET requests
    and console lines; and what a single change may leave: POST requests
    and console lines. *)
Definition reading (ev : event) : Prop :=
  match ev with
  | Fetch method _ => method = "GET"
  | ConsoleError _ _ | ConsoleDebug _ _ => True
  | Confirm _ | Alert _ => False
  end.

Definition posting (ev : event) : Prop :=
  match ev with
  | Fetch method _ => method = "POST"
  | ConsoleError _ _ | ConsoleDebug _ _ => True
  | Confirm _ | Alert _ => False
  end.

(* ===================================================================== *)
(** ** Sample worlds *)
(* ===================================================================== *)

Module Example.

Definition answer {A} (a : A) : result (response A) := Fulfilled (Ok (Fulfilled a)).

Definition world (docs : result (response DocumentsResponse))
    (metas : result (response MetadataResponse))
    (history : string → result (response VersionsResponse)) : Env :=
  {| VITE_API_BASE_URL := None;
     PROD := true;
     GET_documents := fun _ => docs;
     GET_metadata_all := fun _ => metas;
     GET_versions := history;
     GET_messages_count := fun _ => answer {| count := Some 42%Z |};
     POST_revert := fun _ => answer {| revert_message := Some "reverted" |};
     Date_now := fun _ => 1767225600000%Z;
     window_confirm := fun _ => true |}.

Definition roadmap : Doc.t :=
  Doc.mk (Some "1AbCdEfGhIjKlMn") None (Some "Roadmap") (Some 1767222000000%Z).
Definition notes : Doc.t :=
  Doc.mk (Some "2ZyXwVuTsRqPoNm") None None None.

Definition roadmap_meta : Meta.t :=
  Meta.mk (Some "1AbCdEfGhIjKlMn") (Some "Team roadmap")
          (Some ["x"; "slack:C123"; "y"]) (Some "plans").

Definition roadmap_history : VersionsResponse :=
  {| versions := Some
       [VersionRecord.mk (Some "5f0c") 1767000000000 (Some (VersionRecord.mk_meta (Some 120%Z)));
        VersionRecord.mk (Some "77aa") 1767100000000 None;
        VersionRecord.mk (Some "9b1e") 1767050000000 (Some (VersionRecord.mk_meta None))] |}.

(** Two documents, the first with three versions; the history of the
    second cannot be fetched. *)
Definition history (url : string) : result (response VersionsResponse) :=
  if decide (url = "/api/v1/versions/1AbCdEfGhIjKlMn") then answer roadmap_history
  else Rejected (TypeError "Failed to fetch").

Definition two_documents : Env :=
  world (answer {| documents := Some [roadmap; notes] |})
        (answer {| meta_documents := Some [roadmap_meta]; meta_count := Some 1%Z |})
        history.

(** A document list whose entries carry their identifier as [doc_id]. *)
Definition legacy_ids : Env :=
  world (answer {| documents :=
                     Some [Doc.mk (Some "") (Some "1AbCdEfGhIjKlMn") (Some "Roadmap") None;
                           Doc.mk None (Some "2ZyXwVuTsRqPoNm") (Some "Notes") None] |})
        (answer {| meta_documents := Some []; meta_count := Some 0%Z |})
        history.


(** Both list endpoints are down. *)
Definition lists_down : Env :=
  world (Rejected (TypeError "Failed to fetch"))
        (Fulfilled (NotOk (Fulfilled {| detail := Some "unavailable" |})))
        history.

Definition idle : Dashboard.State :=
  {| Dashboard.activeTab := "history";
     Dashboard.documents := [];
     Dashboard.selectedDocumentForHistory := None;
     Dashboard.loading := false;
     Dashboard.error := None;
     Dashboard.refreshing := false;
     Dashboard.totalMessageCount := 0 |}.

End Example.

(* ===================================================================== *)
(** ** More sample worlds *)
(* ===================================================================== *)

Module Sample.

(** The service refuses every change with a reason. *)
Definition refusing : ApiCalls.Service :=
  {| ApiCalls.core := Example.two_documents;
     ApiCalls.POST_trigger := fun _ _ =>
       Fulfilled (NotOk (Fulfilled {| detail := Some "Document is locked" |}));
     ApiCalls.POST_drive_mapping_sync := fun _ =>
       Fulfilled (NotOk (Fulfilled {| detail := None |}));
     ApiCalls.GET_documents_search := fun _ => Rejected (TypeError "Failed to fetch") |}.

(** The service accepts every change. *)
Definition accepting : ApiCalls.Service :=
  {| ApiCalls.core := Example.two_documents;
     ApiCalls.POST_trigger := fun _ _ =>
       Example.answer {| ApiCalls.json_text := "{}" |};
     ApiCalls.POST_drive_mapping_sync := fun _ =>
       Example.answer {| ApiCalls.json_text := "{}" |};
     ApiCalls.GET_documents_search := fun _ =>
       Example.answer {| ApiCalls.json_text := "{}" |} |}.

(** The dashboard once it has loaded the two sample documents. *)
Definition loaded : Dashboard.State :=
  match outcome (Dashboard.fetchDocuments Example.two_documents Example.idle) with
  | Fulfilled s => s
  | Rejected _ => Example.idle
  end.

End Sample.

(* ===================================================================== *)
(** ** How tasks settle and what they leave in the trace *)
(* ===================================================================== *)

Section io_facts.
Context {A B : Type}.
Implicit Types (m : IO A) (k : A → IO B) (h : exn → IO A).

Lemma outcome_bind m k :
  outcome (bind m k) =
  match outcome m with Fulfilled a => outcome (k a) | Rejected e => Rejected e end.
Proof. unfold bind. by destruct (outcome m). Qed.

Lemma trace_bind m k :
  trace (bind m k) =
  match outcome m with Fulfilled a => trace m ++ trace (k a) | Rejected _ => trace m end.
Proof. unfold bind. by destruct (outcome m). Qed.

Lemma outcome_try_catch m h :
  outcome (try_catch m h) =
  match outcome m with Fulfilled a => Fulfilled a | Rejected e => outcome (h e) end.
Proof. unfold try_catch. by destruct (outcome m) eqn:E. Qed.

Lemma trace_try_catch m h :
  trace (try_catch m h) =
  match outcome m with Fulfilled _ => trace m | Rejected e => trace m ++ trace (h e) end.
Proof. unfold try_catch. by destruct (outcome m) eqn:E. Qed.

Lemma all_outcomes_Fulfilled (rs : list (result A)) (l : list A) :
  all_outcomes rs = Fulfilled l ↔ rs = Fulfilled <$> l.
Proof.
  revert l. induction rs as [|[a|e] rs IH]; intros l; simpl.
  - split; [intros [= <-]; done | by destruct l].
  - destruct (all_outcomes rs) as [l'|e] eqn:E.
    + split.
      * intros [= <-]. simpl. f_equal. by apply IH.
      * destruct l as [|a' l'']; [done|]. intros [= <- H]. f_equal. f_equal.
        apply IH in H. congruence.
    + split; [done|]. destruct l as [|a' l'']; [done|]. intros [= <- H].
      apply IH in H. done.
  - split; [done|]. by destruct l.
Qed.

Lemma all_outcomes_total (rs : list (result A)) :
  Forall (fun r => ∃ a, r = Fulfilled a) rs → ∃ l, all_outcomes rs = Fulfilled l.
Proof.
  induction 1 as [|r rs [a ->] _ [l IH]]; simpl; [by eexists|].
  rewrite IH. by eexists.
Qed.

Lemma all_outcomes_Rejected (rs : list (result A)) e :
  all_outcomes rs = Rejected e → Rejected e ∈ rs.
Proof.
  induction rs as [|[a|e'] rs IH]; simpl; [done| |].
  - destruct (all_outcomes rs); [done|]. intros [= ->]. right. by apply IH.
  - intros [= ->]. left.
Qed.

End io_facts.

(* ===================================================================== *)
(** ** The request wrappers and the per-document task *)
(* ===================================================================== *)

Section api_facts.
Import Api.
Implicit Types (env : Env) (folderId docId : option string).

(** All three read-only wrappers that degrade softly have this shape. *)
Lemma soft_get_outcome {A} (endpoint : string → result (response A)) url msg label (dflt : A) :
  outcome (try_catch
             (let* response := fetch endpoint "GET" url in
              match response with
              | NotOk _ => throw (Error msg)
              | Ok json => settle json
              end)
             (fun error => console_error label error ;; ret dflt))
  = Fulfilled (default dflt (delivered (endpoint url))).
Proof.
  rewrite outcome_try_catch, outcome_bind. simpl.
  destruct (endpoint url) as [[[a|e]|j]|e]; simpl; done.
Qed.

Lemma getDocuments_outcome env folderId :
  ∃ url, Fetch "GET" url ∈ trace (getDocuments env folderId) ∧
    outcome (getDocuments env folderId) =
    Fulfilled (default {| documents := Some [] |} (delivered (GET_documents env url))).
Proof.
  unfold getDocuments.
  eexists; split; [| apply soft_get_outcome].
  rewrite trace_try_catch, outcome_bind, trace_bind. simpl.
  destruct (GET_documents env _) as [[[a|e]|j]|e]; simpl; set_solver.
Qed.

Lemma getAllMetadata_outcome env folderId :
  ∃ url, Fetch "GET" url ∈ trace (getAllMetadata env folderId) ∧
    outcome (getAllMetadata env folderId) =
    Fulfilled (default {| meta_documents := Some []; meta_count := Some 0%Z |}
                 (delivered (GET_metadata_all env url))).
Proof.
  unfold getAllMetadata.
  eexists; split; [| apply soft_get_outcome].
  rewrite trace_try_catch, outcome_bind, trace_bind. simpl.
  destruct (GET_metadata_all env _) as [[[a|e]|j]|e]; simpl; set_solver.
Qed.

Lemma getVersionHistory_outcome env docId :
  outcome (getVersionHistory env docId) =
  match GET_versions env (API_BASE_URL env +:+ "/versions/" +:+ toString docId) with
  | Fulfilled (Ok json) => json
  | Fulfilled (NotOk _) => Rejected (Error "Failed to fetch version history")
  | Rejected e => Rejected e
  end.
Proof.
  unfold getVersionHistory. rewrite outcome_try_catch, outcome_bind. simpl.
  destruct (GET_versions env _) as [[[a|e]|j]|e]; simpl; done.
Qed.

(** The version block never rejects: a failure becomes the empty list. *)
Lemma fetched_versions_outcome env docId :
  outcome (fetched_versions env docId) =
  Fulfilled match outcome (getVersionHistory env docId) with
            | Fulfilled r => imap version_entry (default [] (versions r))
            | Rejected _ => []
            end.
Proof.
  unfold fetched_versions. rewrite outcome_try_catch, outcome_bind.
  by destruct (outcome (getVersionHistory env docId)).
Qed.

Lemma fetched_versions_logged env docId e :
  outcome (getVersionHistory env docId) = Rejected e →
  ConsoleDebug ("Could not fetch versions for " +:+ toString docId +:+ ":") e
    ∈ trace (fetched_versions env docId).
Proof.
  intros H. unfold fetched_versions.
  rewrite trace_try_catch, outcome_bind, trace_bind, H. simpl. set_solver.
Qed.

(** What a per-document task yields: it rejects exactly when the name
    cannot be built. *)
Lemma document_task_outcome env mm i doc :
  outcome (document_task env mm i doc) =
  match resolved_name (Metadata.properties (Metadata.or_empty (MetadataMap.get mm (toString (docId_of doc)))))
                      doc (docId_of doc),
        outcome (fetched_versions env (docId_of doc)) with
  | Fulfilled name, Fulfilled vs =>
      Fulfilled
        {| Channel.id := docId_of doc;
           Channel.name := name;
           Channel.status := "active";
           Channel.messageCount := 0;
           Channel.lastUpdate :=
             match Doc.modified_time doc with
             | Some t => formatTimeAgo (Date_now env i) t
             | None => "never"
             end;
           Channel.docUrl := "https://docs.google.com/document/d/" +:+ toString (docId_of doc);
           Channel.actionCount := length vs;
           Channel.slackChannelId :=
             slackChannelId (Metadata.properties
                               (Metadata.or_empty (MetadataMap.get mm (toString (docId_of doc)))));
           Channel.versions := vs;
           Channel.metadata := Metadata.or_empty (MetadataMap.get mm (toString (docId_of doc))) |}
  | Rejected e, _ => Rejected e
  | _, Rejected e => Rejected e
  end.
Proof.
  unfold document_task, docId_of. rewrite !outcome_bind, fetched_versions_outcome. simpl.
  by destruct (resolved_name _ _ _).
Qed.

Lemma trace_document_task env mm i doc :
  ∀ ev, ev ∈ trace (fetched_versions env (docId_of doc)) → ev ∈ trace (document_task env mm i doc).
Proof.
  intros ev H. unfold document_task. rewrite trace_bind, fetched_versions_outcome.
  fold (docId_of doc). set_solver.
Qed.

Lemma getChannelsData_outcome env folderId :
  outcome (getChannelsData env folderId) =
  all_outcomes (outcome <$> imap (document_task env (metadata_map (metadata_of env folderId)))
                                 (documents_of env folderId)).
Proof.
  unfold getChannelsData, documents_of, metadata_of.
  destruct (getDocuments_outcome env folderId) as (u1 & _ & H1).
  destruct (getAllMetadata_outcome env folderId) as (u2 & _ & H2).
  rewrite outcome_try_catch, outcome_bind. unfold Promise_all2. simpl.
  rewrite H1, H2. simpl.
  match goal with |- context [all_outcomes ?l] => destruct (all_outcomes l) end; done.
Qed.

Lemma trace_getChannelsData env folderId i doc ev :
  documents_of env folderId !! i = Some doc →
  ev ∈ trace (document_task env (metadata_map (metadata_of env folderId)) i doc) →
  ev ∈ trace (getChannelsData env folderId).
Proof.
  intros Hi Hev.
  assert (Hin : ev ∈ concat (trace <$> imap (document_task env (metadata_map (metadata_of env folderId)))
                                        (documents_of env folderId))).
  { apply list_elem_of_In, in_concat. eexists; split; [| apply list_elem_of_In, Hev].
    apply list_elem_of_In, list_elem_of_fmap. eexists; split; [done|].
    by apply elem_of_lookup_imap_2. }
  revert Hin.
  unfold getChannelsData, documents_of, metadata_of.
  destruct (getDocuments_outcome env folderId) as (u1 & _ & H1).
  destruct (getAllMetadata_outcome env folderId) as (u2 & _ & H2).
  rewrite trace_try_catch, outcome_bind, trace_bind. unfold Promise_all2. simpl.
  rewrite H1, H2. simpl. intros Hin.
  match goal with |- context [all_outcomes ?l] => destruct (all_outcomes l) end;
    rewrite !elem_of_app; tauto.
Qed.
End api_facts.

Section aggregation.
Import Api.
Implicit Types (env : Env) (folderId docId : option string).

Lemma getChannelsData_lookup env folderId cs :
  outcome (getChannelsData env folderId) = Fulfilled cs →
  length cs = length (documents_of env folderId) ∧
  ∀ i, match documents_of env folderId !! i, cs !! i with
       | Some d, Some c =>
           outcome (document_task env (metadata_map (metadata_of env folderId)) i d) = Fulfilled c
       | None, None => True
       | _, _ => False
       end.
Proof.
  rewrite getChannelsData_outcome, all_outcomes_Fulfilled. intros H. split.
  - apply (f_equal length) in H. rewrite !length_fmap, length_imap in H. done.
  - intros i. apply (f_equal (.!! i)) in H.
    rewrite !list_lookup_fmap, list_lookup_imap in H.
    destruct (documents_of env folderId !! i), (cs !! i); by simplify_eq/=.
Qed.

(** No assignment makes ["__proto__"] an own property of the map. *)
Lemma metadata_map_own_proto (M : list Meta.t) :
  MetadataMap.own (metadata_map M) !! "__proto__" = None.
Proof.
  unfold metadata_map.
  assert (H : MetadataMap.own MetadataMap.empty !! "__proto__" = None) by done.
  revert H. generalize MetadataMap.empty.
  induction M as [|m M IH]; intros acc Hacc; simpl; [done|].
  apply IH. unfold MetadataMap.set. case_decide; simpl; [done|].
  by rewrite lookup_insert_ne.
Qed.

(** The map has no own property under a key that no record of the list
    carries. *)
Lemma metadata_map_own_None (M : list Meta.t) (k : string) :
  (∀ m, m ∈ M → toString (Meta.doc_id m) ≠ k) →
  MetadataMap.own (metadata_map M) !! k = None.
Proof.
  unfold metadata_map.
  assert (H : MetadataMap.own MetadataMap.empty !! k = None) by done.
  revert H. generalize MetadataMap.empty.
  induction M as [|m M IH]; intros acc Hacc HM; simpl; [done|].
  apply IH.
  - unfold MetadataMap.set. case_decide; simpl; [done|].
    rewrite lookup_insert_ne; [done|]. apply HM. left.
  - intros m' Hm'. apply HM. by right.
Qed.

(** The prototype stays [Object.prototype] when no record of the list is
    keyed ["__proto__"]. *)
Lemma metadata_map_prototype_None (M : list Meta.t) :
  (∀ m, m ∈ M → toString (Meta.doc_id m) ≠ "__proto__") →
  MetadataMap.prototype (metadata_map M) = None.
Proof.
  unfold metadata_map.
  assert (H : MetadataMap.prototype MetadataMap.empty = None) by done.
  revert H. generalize MetadataMap.empty.
  induction M as [|m M IH]; intros acc Hacc HM; simpl; [done|].
  apply IH.
  - unfold MetadataMap.set. case_decide as Hk; simpl; [|done].
    destruct (HM m); [left|done].
  - intros m' Hm'. apply HM. by right.
Qed.

(** Last write wins: the record found under a key is the last one in the
    list that carries it, also when the key is ["__proto__"]. *)
Lemma metadata_map_get_last (M1 M2 : list Meta.t) (m : Meta.t) :
  (∀ m', m' ∈ M2 → toString (Meta.doc_id m') ≠ toString (Meta.doc_id m)) →
  MetadataMap.get (metadata_map (M1 ++ m :: M2)) (toString (Meta.doc_id m))
  = Some (Metadata.Plain m).
Proof.
  intros HM2. set (k := toString (Meta.doc_id m)) in *.
  destruct (decide (k = "__proto__")) as [Hk|Hk].
  - unfold MetadataMap.get. rewrite Hk, metadata_map_own_proto. simpl.
    enough (MetadataMap.prototype (metadata_map (M1 ++ m :: M2)) = Some m) as -> by done.
    unfold metadata_map. rewrite foldl_app. simpl.
    match goal with |- context [foldl ?f MetadataMap.empty M1] =>
      generalize (foldl f MetadataMap.empty M1) end.
    intros acc. fold k.
    assert (H : MetadataMap.prototype (MetadataMap.set k m acc) = Some m).
    { unfold MetadataMap.set. by rewrite decide_True. }
    revert H. generalize (MetadataMap.set k m acc). clear acc.
    induction M2 as [|m2 M2 IH]; intros acc Hacc; simpl; [done|].
    apply IH.
    + intros m' Hm'. apply HM2. by right.
    + unfold MetadataMap.set. case_decide as Hk2; simpl; [|done].
      destruct (HM2 m2); [left|congruence].
  - unfold MetadataMap.get.
    enough (MetadataMap.own (metadata_map (M1 ++ m :: M2)) !! k = Some m) as -> by done.
    unfold metadata_map. rewrite foldl_app. simpl.
    match goal with |- context [foldl ?f MetadataMap.empty M1] =>
      generalize (foldl f MetadataMap.empty M1) end.
    intros acc. fold k.
    assert (H : MetadataMap.own (MetadataMap.set k m acc) !! k = Some m).
    { unfold MetadataMap.set. rewrite decide_False by done. simpl. apply lookup_insert_eq. }
    revert H. generalize (MetadataMap.set k m acc). clear acc.
    induction M2 as [|m2 M2 IH]; intros acc Hacc; simpl; [done|].
    apply IH.
    + intros m' Hm'. apply HM2. by right.
    + unfold MetadataMap.set. case_decide as Hk2; simpl; [done|].
      rewrite lookup_insert_ne; [done|]. apply HM2. left.
Qed.

(** Under a key that no record carries the map has what every object
    inherits, when no record has replaced the prototype. *)
Lemma metadata_map_get_inherited (M : list Meta.t) (k : string) :
  (∀ m, m ∈ M → toString (Meta.doc_id m) ≠ k) →
  (∀ m, m ∈ M → toString (Meta.doc_id m) ≠ "__proto__") →
  MetadataMap.get (metadata_map M) k
  = if decide (k = "__proto__") then Some Metadata.ObjectPrototype
    else MetadataMap.Object_prototype k.
Proof.
  intros Hk Hp. unfold MetadataMap.get.
  by rewrite metadata_map_own_None, metadata_map_prototype_None.
Qed.

(** Whatever the prototype is, the value found under a key that no record
    carries has the name of the inherited function, or none. *)
Lemma metadata_map_name_inherited (M : list Meta.t) (k : string) :
  (∀ m, m ∈ M → toString (Meta.doc_id m) ≠ k) →
  Metadata.properties (Metadata.or_empty (MetadataMap.get (metadata_map M) k))
  = Metadata.properties (Metadata.or_empty (MetadataMap.Object_prototype k)) ∨
  Metadata.properties (Metadata.or_empty (MetadataMap.get (metadata_map M) k)) = Meta.empty.
Proof.
  intros Hk. unfold MetadataMap.get. rewrite metadata_map_own_None by done.
  case_decide as Hp.
  - right. subst k. by rewrite metadata_map_prototype_None.
  - destruct (MetadataMap.prototype (metadata_map M)) as [p|]; simpl; [|by left].
    assert (Hv : ∀ v : option Metadata.t,
               (∀ w, v = Some w → Metadata.properties w = Meta.empty) →
               Metadata.properties (Metadata.or_empty v) = Meta.empty).
    { intros [w|] Hw; simpl; [|done]. destruct (Metadata.is_truthy w); [|done]. by apply Hw. }
    unfold MetadataMap.field.
    repeat case_decide; try (by left); right; apply Hv; intros w Hw;
      match type of Hw with
      | context [_ <$> ?o] => destruct o; simplify_eq/=; done
      end.
Qed.

Lemma truthy_spec (v : option string) :
  truthy v = true ↔ ∃ s, v = Some s ∧ s ≠ "".
Proof.
  destruct v as [[|a s]|]; simpl; split; try done.
  - intros (s & [= <-] & Hs). done.
  - intros _. by eexists.
  - intros (s & [=] & _).
Qed.

Lemma falsy_spec (v : option string) :
  truthy v = false ↔ v = None ∨ v = Some "".
Proof.
  destruct v as [[|a s]|]; simpl; split; try done; auto.
  intros [|]; done.
Qed.

End aggregation.

(* ===================================================================== *)
(** ** The aggregation: one Channel per document, names, counters *)
(* ===================================================================== *)

Section aggregation_claims.
Import Api.
Implicit Types (env : Env) (folderId docId : option string).

Lemma resolved_name_with_id metadata doc s :
  ∃ n, resolved_name metadata doc (Some s) = Fulfilled n.
Proof. unfold resolved_name. destruct (truthy _); simpl; by eexists. Qed.

(** Every document that carries an identifier, as [id] or as [doc_id],
    gets its Channel: the aggregation returns one Channel per document, in
    the order of the document list, whatever the metadata list and the
    version histories are, and the Channel's id is the document's [id] when
    that is present and not empty, and its [doc_id] otherwise. *)
Lemma getChannelsData_with_identifiers env folderId :
  Forall (fun d => is_Some (docId_of d)) (documents_of env folderId) →
  ∃ cs, outcome (getChannelsData env folderId) = Fulfilled cs ∧
        length cs = length (documents_of env folderId) ∧
        ∀ i d, documents_of env folderId !! i = Some d →
          ∃ c, cs !! i = Some c ∧ Channel.id c = docId_of d.
Proof.
  intros Hids.
  destruct (all_outcomes_total
              (outcome <$> imap (document_task env (metadata_map (metadata_of env folderId)))
                                (documents_of env folderId))) as [cs Hcs].
  { apply Forall_fmap, Forall_forall. intros t Ht.
    apply elem_of_lookup_imap in Ht as (i & d & -> & Hd).
    rewrite Forall_forall in Hids.
    destruct (Hids d) as [s Hs]; [by eapply list_elem_of_lookup_2|].
    simpl. rewrite document_task_outcome, fetched_versions_outcome, Hs.
    match goal with |- context [resolved_name ?m d (Some s)] =>
      destruct (resolved_name_with_id m d s) as [n ->] end.
    by eexists. }
  rewrite <- getChannelsData_outcome in Hcs.
  exists cs. split; [done|].
  destruct (getChannelsData_lookup _ _ _ Hcs) as [Hlen Hnth].
  split; [done|]. intros i d Hd. specialize (Hnth i). rewrite Hd in Hnth.
  destruct (cs !! i) as [c|]; [|done]. exists c. split; [done|].
  rewrite document_task_outcome, fetched_versions_outcome in Hnth.
  destruct (resolved_name _ _ _); [|done]. by injection Hnth as <-.
Qed.

(** C1.  For every list of document records, each with its [id] (a
    string that is present and not empty), and every metadata list, the
    aggregation returns exactly as many Channels as there are documents;
    the Channel at position [i] has the id of the document at position
    [i], so the order is that of the document list.  Nothing is assumed of
    the metadata list or of the version histories: they may be missing,
    empty or fail to load. *)
Theorem getChannelsData_one_channel_per_document env folderId :
  Forall (fun d => ∃ s, Doc.id d = Some s ∧ s ≠ "") (documents_of env folderId) →
  ∃ cs, outcome (getChannelsData env folderId) = Fulfilled cs ∧
        length cs = length (documents_of env folderId) ∧
        ∀ i d, documents_of env folderId !! i = Some d →
          ∃ c, cs !! i = Some c ∧ Channel.id c = Doc.id d.
Proof.
  intros Hids.
  assert (Hdoc : ∀ d, d ∈ documents_of env folderId → docId_of d = Doc.id d).
  { intros d Hd. rewrite Forall_forall in Hids.
    destruct (Hids d Hd) as (s & Hs & Hne). unfold docId_of, JS.or. rewrite Hs.
    by destruct s. }
  destruct (getChannelsData_with_identifiers env folderId) as (cs & Hcs & Hlen & Hnth).
  { apply Forall_forall. intros d Hd. rewrite (Hdoc d Hd).
    rewrite Forall_forall in Hids. destruct (Hids d Hd) as (s & -> & _). by eexists. }
  exists cs. split; [done|]. split; [done|]. intros i d Hd.
  destruct (Hnth i d Hd) as (c & Hc & Hid). exists c. split; [done|].
  rewrite Hid. apply Hdoc. by eapply list_elem_of_lookup_2.
Qed.

Lemma getChannelsData_one_channel_per_document_witness :
  ∃ cs, outcome (getChannelsData Example.two_documents None) = Fulfilled cs ∧
        length cs = 2%nat ∧
        Channel.id <$> cs = [Some "1AbCdEfGhIjKlMn"; Some "2ZyXwVuTsRqPoNm"] ∧
        Channel.id <$> cs = Doc.id <$> documents_of Example.two_documents None.
Proof.
  destruct (getChannelsData_one_channel_per_document Example.two_documents None)
    as (cs & Hcs & Hlen & _).
  - repeat constructor; eexists; (split; [reflexivity | done]).
  - exists cs. split; [exact Hcs|]. split; [exact Hlen|].
    assert (Fulfilled cs
            = Fulfilled (match outcome (getChannelsData Example.two_documents None) with
                         | Fulfilled l => l
                         | Rejected _ => []
                         end)) as [= ->] by (by rewrite Hcs).
    split; reflexivity.
Defined.

(** Where the identifier of a document is under [doc_id], with an [id]
    that is empty or missing, the Channel takes the [doc_id]. *)
Lemma channel_id_of_documents_without_id :
  ∃ cs, outcome (getChannelsData Example.legacy_ids None) = Fulfilled cs ∧
        Doc.id <$> documents_of Example.legacy_ids None = [Some ""; None] ∧
        Channel.id <$> cs = [Some "1AbCdEfGhIjKlMn"; Some "2ZyXwVuTsRqPoNm"].
Proof. eexists. split; [vm_compute; reflexivity|]. by vm_compute. Qed.

(** [substring(0, 8)] counts UTF-16 code units: an accented letter of two
    bytes is one unit, a character outside the basic plane is two. *)
Lemma substring0_counts_code_units :
  substring0 8 "1AbCdEfGhIjKlMn" = "1AbCdEfG" ∧
  substring0 8 "résumé-2025" = "résumé-2" ∧
  substring0 8 "日本語のドキュメント" = "日本語のドキュメ" ∧
  substring0 3 "a😀b" = "a😀" ∧
  String.length (substring0 2 "a😀b") = 4%nat ∧
  substring0 8 "short" = "short".
Proof. repeat split; reflexivity. Qed.

Lemma resolved_name_cases metadata doc docId n :
  resolved_name metadata doc docId = Fulfilled n →
  (∀ o, Meta.name metadata = Some o → o ≠ "" → n = o) ∧
  (Meta.name metadata = None ∨ Meta.name metadata = Some "" →
     (∀ o, Doc.name doc = Some o → o ≠ "" → n = o) ∧
     (Doc.name doc = None ∨ Doc.name doc = Some "" →
        ∃ s, docId = Some s ∧ n = "Document " +:+ substring0 8 s)).
Proof.
  unfold resolved_name, JS.or, placeholder. intros H. split.
  - intros o Ho Hne. rewrite Ho in H.
    destruct o as [|a o]; [done|]. simpl in H. congruence.
  - intros Hm. apply falsy_spec in Hm. rewrite Hm in H. split.
    + intros o Ho Hne. rewrite Ho in H.
      destruct o as [|a o]; [done|]. simpl in H. congruence.
    + intros Hd. apply falsy_spec in Hd. rewrite Hd in H.
      destruct docId as [s|]; [|done]. exists s. split; [done|]. congruence.
Qed.


(** A document without identifier and without any name has no placeholder:
    reading [substring] of [undefined] throws, and the whole aggregation
    rejects. *)
Lemma getChannelsData_rejects_anonymous_document :
  outcome (getChannelsData
             (Example.world
                (Example.answer {| documents := Some [Example.roadmap;
                                                      Doc.mk None None None None] |})
                (Example.answer {| meta_documents := Some []; meta_count := Some 0%Z |})
                Example.history)
             None)
  = Rejected (TypeError "Cannot read properties of undefined (reading 'substring')").
Proof. by vm_compute. Qed.

(** C9.  In every Channel that an aggregation pass produces, [actionCount]
    is the length of the Channel's [versions]. *)
Theorem actionCount_is_versions_length env folderId cs :
  outcome (getChannelsData env folderId) = Fulfilled cs →
  Forall (fun c => Channel.actionCount c = length (Channel.versions c)) cs.
Proof.
  intros Hcs. apply Forall_lookup. intros i c Hc.
  destruct (getChannelsData_lookup _ _ _ Hcs) as [_ Hnth].
  specialize (Hnth i). rewrite Hc in Hnth.
  destruct (documents_of env folderId !! i) as [d|]; [|done].
  rewrite document_task_outcome, fetched_versions_outcome in Hnth.
  destruct (resolved_name _ _ _); [|done]. by injection Hnth as <-.
Qed.

Lemma actionCount_is_versions_length_witness :
  ∃ cs, outcome (getChannelsData Example.two_documents None) = Fulfilled cs ∧
        Forall (fun c => Channel.actionCount c = length (Channel.versions c)) cs ∧
        Channel.actionCount <$> cs = [3; 0]%nat.
Proof.
  eexists. split; [vm_compute; reflexivity|]. split; [|reflexivity].
  apply (actionCount_is_versions_length Example.two_documents None). by vm_compute.
Defined.

(** The derived fields of a Channel are those of the metadata record kept
    for its document. *)
Lemma channel_derived_fields env folderId cs i d c :
  outcome (getChannelsData env folderId) = Fulfilled cs →
  documents_of env folderId !! i = Some d →
  cs !! i = Some c →
  Channel.metadata c
  = Metadata.or_empty (MetadataMap.get (metadata_map (metadata_of env folderId))
                                       (toString (docId_of d))) ∧
  Channel.slackChannelId c = slackChannelId (Metadata.properties (Channel.metadata c)) ∧
  Channel.status c = "active" ∧
  Channel.docUrl c = "https://docs.google.com/document/d/" +:+ toString (Channel.id c) ∧
  Channel.lastUpdate c = match Doc.modified_time d with
                         | Some t => formatTimeAgo (Date_now env i) t
                         | None => "never"
                         end.
Proof.
  intros Hcs Hd Hc.
  destruct (getChannelsData_lookup _ _ _ Hcs) as [_ Hnth].
  specialize (Hnth i). rewrite Hd, Hc in Hnth.
  rewrite document_task_outcome, fetched_versions_outcome in Hnth.
  destruct (resolved_name _ _ _); [|done]. by injection Hnth as <-.
Qed.

End aggregation_claims.

(* ===================================================================== *)
(** ** Isolation of a failed version-history fetch *)
(* ===================================================================== *)

Section failure_isolation.
Import Api.
Implicit Types (env : Env) (folderId docId : option string).

Lemma document_task_fulfilled_any_world env env' mm i doc :
  (∃ c, outcome (document_task env mm i doc) = Fulfilled c) →
  ∃ c', outcome (document_task env' mm i doc) = Fulfilled c'.
Proof.
  rewrite !document_task_outcome, !fetched_versions_outcome.
  destruct (resolved_name _ _ _); [by eexists | by intros [c [=]]].
Qed.

(** Another answer for [a]'s history changes nothing for a document with
    another identifier. *)
Lemma document_task_with_versions env a r mm i doc :
  toString (docId_of doc) ≠ toString a →
  outcome (document_task (with_versions env a r) mm i doc)
  = outcome (document_task env mm i doc).
Proof.
  intros Hne. rewrite !document_task_outcome, !fetched_versions_outcome.
  rewrite !getVersionHistory_outcome. simpl.
  change (API_BASE_URL (with_versions env a r)) with (API_BASE_URL env).
  rewrite decide_False; [done|].
  intros Heq. apply Hne.
  by do 2 apply String.app_inj in Heq.
Qed.

Lemma document_task_without_history env docId e mm i doc c :
  outcome (getVersionHistory env docId) = Rejected e →
  toString (docId_of doc) = toString docId →
  outcome (document_task env mm i doc) = Fulfilled c →
  Channel.versions c = [] ∧ Channel.actionCount c = 0%nat ∧
  ConsoleDebug ("Could not fetch versions for " +:+ toString docId +:+ ":") e
    ∈ trace (document_task env mm i doc).
Proof.
  intros He Hid Hc.
  assert (He' : outcome (getVersionHistory env (docId_of doc)) = Rejected e).
  { rewrite getVersionHistory_outcome in *. by rewrite Hid. }
  split; [|split].
  - rewrite document_task_outcome, fetched_versions_outcome, He' in Hc.
    destruct (resolved_name _ _ _); [|done]. by injection Hc as <-.
  - rewrite document_task_outcome, fetched_versions_outcome, He' in Hc.
    destruct (resolved_name _ _ _); [|done]. by injection Hc as <-.
  - apply trace_document_task. rewrite <- Hid. by apply fetched_versions_logged.
Qed.

(** C2.  Let the version-history fetch of the document with identifier [a]
    fail, and compare with the run in which that fetch is answered by [r]
    instead: when that run returns Channels, so does the failing one, with
    the same Channel (name, versions, actionCount and all) for every
    document of another identifier; the Channel of [a] has no versions and
    [actionCount] 0, and the error shows only as a console line. *)
Theorem version_fetch_failure_is_isolated env folderId a r e cs_ok :
  outcome (getVersionHistory env a) = Rejected e →
  outcome (getChannelsData (with_versions env a r) folderId) = Fulfilled cs_ok →
  ∃ cs, outcome (getChannelsData env folderId) = Fulfilled cs ∧
        length cs = length cs_ok ∧
        ∀ i c_ok, cs_ok !! i = Some c_ok →
          ∃ c, cs !! i = Some c ∧ Channel.id c = Channel.id c_ok ∧
            (toString (Channel.id c_ok) ≠ toString a →
               Channel.name c = Channel.name c_ok ∧
               Channel.versions c = Channel.versions c_ok ∧
               Channel.actionCount c = Channel.actionCount c_ok ∧
               c = c_ok) ∧
            (toString (Channel.id c_ok) = toString a →
               Channel.versions c = [] ∧ Channel.actionCount c = 0%nat ∧
               ConsoleDebug ("Could not fetch versions for " +:+ toString a +:+ ":") e
                 ∈ trace (getChannelsData env folderId)).
Proof.
  intros He Hok.
  destruct (getChannelsData_lookup _ _ _ Hok) as [Hlen_ok Hnth_ok].
  change (documents_of (with_versions env a r) folderId)
    with (documents_of env folderId) in *.
  change (metadata_of (with_versions env a r) folderId)
    with (metadata_of env folderId) in *.
  set (mm := metadata_map (metadata_of env folderId)) in *.
  destruct (all_outcomes_total
              (outcome <$> imap (document_task env mm) (documents_of env folderId)))
    as [cs Hcs].
  { apply Forall_fmap, Forall_forall. intros t Ht.
    apply elem_of_lookup_imap in Ht as (i & d & -> & Hd). simpl.
    apply document_task_fulfilled_any_world with (env := with_versions env a r).
    specialize (Hnth_ok i). rewrite Hd in Hnth_ok.
    destruct (cs_ok !! i); [by eexists | done]. }
  unfold mm in Hcs. rewrite <- getChannelsData_outcome in Hcs.
  exists cs. split; [done|].
  destruct (getChannelsData_lookup _ _ _ Hcs) as [Hlen Hnth]. fold mm in Hnth.
  split; [congruence|].
  intros i c_ok Hc_ok. specialize (Hnth i). specialize (Hnth_ok i).
  rewrite Hc_ok in Hnth_ok.
  destruct (documents_of env folderId !! i) as [d|] eqn:Hd; [|done].
  destruct (cs !! i) as [c|]; [|done]. exists c. split; [done|].
  assert (Hid_ok : Channel.id c_ok = docId_of d).
  { rewrite document_task_outcome, fetched_versions_outcome in Hnth_ok.
    destruct (resolved_name _ _ _); [|done]. by injection Hnth_ok as <-. }
  assert (Hid : Channel.id c = docId_of d).
  { rewrite document_task_outcome, fetched_versions_outcome in Hnth.
    destruct (resolved_name _ _ _); [|done]. by injection Hnth as <-. }
  split; [congruence|]. rewrite Hid_ok. split.
  - intros Hne. rewrite document_task_with_versions in Hnth_ok by done.
    assert (c = c_ok) as -> by congruence. done.
  - intros Heq.
    destruct (document_task_without_history env a e mm i d c He Heq Hnth)
      as (Hv & Hn & Hlog).
    split; [done|]. split; [done|].
    by eapply trace_getChannelsData.
Qed.

Lemma version_fetch_failure_is_isolated_witness :
  ∃ cs_ok,
    outcome (getChannelsData
               (with_versions Example.two_documents (Some "2ZyXwVuTsRqPoNm")
                  (Example.answer Example.roadmap_history)) None) = Fulfilled cs_ok ∧
    outcome (getVersionHistory Example.two_documents (Some "2ZyXwVuTsRqPoNm"))
      = Rejected (TypeError "Failed to fetch") ∧
    Channel.actionCount <$> cs_ok = [3; 3]%nat ∧
    ∃ cs, outcome (getChannelsData Example.two_documents None) = Fulfilled cs ∧
          Channel.actionCount <$> cs = [3; 0]%nat ∧
          cs !! 0%nat = cs_ok !! 0%nat.
Proof.
  eexists. split; [vm_compute; reflexivity|]. split; [reflexivity|].
  split; [reflexivity|].
  match goal with |- ∃ cs, _ ∧ _ ∧ _ = ?l !! _ =>
    destruct (version_fetch_failure_is_isolated Example.two_documents None
                (Some "2ZyXwVuTsRqPoNm") (Example.answer Example.roadmap_history)
                (TypeError "Failed to fetch") l)
      as (cs & Hcs & Hlen & Hnth); [reflexivity | by vm_compute |]
  end.
  exists cs. split; [exact Hcs|].
  split; [vm_compute in Hcs; by injection Hcs as <- |].
  match goal with |- _ = (?c0 :: _) !! _ =>
    destruct (Hnth 0%nat c0 eq_refl) as (c & Hc & _ & Hother & _)
  end.
  rewrite Hc. simpl. f_equal. by apply Hother.
Defined.

End failure_isolation.

(* ===================================================================== *)
(** ** The Slack channel id *)
(* ===================================================================== *)

Section slack_channel.
Import Api.

Lemma substring_whole (s : string) : String.substring 0 (String.length s) s = s.
Proof. induction s as [|a s IH]; simpl; [done|]. by rewrite IH. Qed.

Lemma replace_slack_prefix (rest : string) : replace "slack:" "" ("slack:" +:+ rest) = rest.
Proof.
  transitivity (String.substring 0 (String.length rest) rest); [|apply substring_whole].
  destruct rest; reflexivity.
Qed.

Lemma startsWith_slack_prefix (rest : string) : startsWith ("slack:" +:+ rest) "slack:" = true.
Proof. destruct rest; reflexivity. Qed.

Lemma startsWith_inv (t p : string) : startsWith t p = true → ∃ rest, t = p +:+ rest.
Proof.
  unfold startsWith. revert t. induction p as [|a p IH]; intros t H.
  - by exists t.
  - destruct t as [|b t]; [done|]. simpl in H.
    destruct (Ascii.ascii_dec a b) as [->|]; [|done].
    destruct (IH t H) as [rest ->]. by exists rest.
Qed.

Lemma find_first {A} (p : A → bool) (before after : list A) (x : A) :
  Forall (fun y => p y = false) before → p x = true →
  find p (before ++ x :: after) = Some x.
Proof.
  induction 1 as [|y before Hy _ IH]; intros Hx; simpl.
  - by rewrite Hx.
  - rewrite Hy. by apply IH.
Qed.

Lemma find_none {A} (p : A → bool) (l : list A) :
  Forall (fun y => p y = false) l → find p l = None.
Proof. induction 1 as [|y l Hy _ IH]; simpl; [done|]. by rewrite Hy. Qed.

Lemma find_some {A} (p : A → bool) (l : list A) (x : A) :
  find p l = Some x → x ∈ l ∧ p x = true.
Proof.
  induction l as [|y l IH]; simpl; [done|].
  destruct (p y) eqn:Hy.
  - intros [= ->]. split; [left | done].
  - intros H. destruct (IH H). split; [by right | done].
Qed.

(** C4 (as amended).  The Slack channel id of a metadata record is not
    empty only if at least one of its tags begins with ["slack:"]; it is
    the first such tag without the prefix, whatever tags follow it.  Tags
    ["x"; "slack:C123"; "y"] give ["C123"]; a tag list without such a tag,
    a record without tags and the absent record give the empty string. *)
Theorem slackChannelId_first_slack_tag (metadata : Meta.t) :
  (slackChannelId metadata ≠ "" →
     ∃ tags t, Meta.tags metadata = Some tags ∧ t ∈ tags ∧ startsWith t "slack:" = true) ∧
  (∀ before rest after,
     Meta.tags metadata = Some (before ++ ("slack:" +:+ rest) :: after) →
     Forall (fun t => startsWith t "slack:" = false) before →
     slackChannelId metadata = rest) ∧
  (∀ tags, Meta.tags metadata = Some tags →
     Forall (fun t => startsWith t "slack:" = false) tags →
     slackChannelId metadata = "") ∧
  (Meta.tags metadata = None → slackChannelId metadata = "") ∧
  slackChannelId (Meta.mk (Meta.doc_id metadata) (Meta.name metadata)
                    (Some ["x"; "slack:C123"; "y"]) (Meta.description metadata)) = "C123" ∧
  slackChannelId Meta.empty = "".
Proof.
  unfold slackChannelId, slackTag. repeat split.
  - destruct (Meta.tags metadata) as [tags|]; [|done].
    destruct (find _ tags) as [t|] eqn:Hfind; [|done]. intros _.
    apply find_some in Hfind as [Hin Ht]. by exists tags, t.
  - intros before rest after -> Hbefore.
    rewrite (find_first _ before after ("slack:" +:+ rest) Hbefore
               (startsWith_slack_prefix rest)).
    destruct rest; [reflexivity|]. apply replace_slack_prefix.
  - intros tags -> Hnone. by rewrite find_none.
  - by intros ->.
Qed.

Lemma slackChannelId_first_slack_tag_witness :
  slackChannelId (Meta.mk None None (Some ["general"; "slack:C123"; "slack:C456"]) None)
  = "C123".
Proof.
  destruct (slackChannelId_first_slack_tag
              (Meta.mk None None (Some ["general"; "slack:C123"; "slack:C456"]) None))
    as (_ & Hfirst & _).
  apply (Hfirst ["general"] "C123" ["slack:C456"]); [reflexivity|].
  repeat constructor.
Defined.

(** C4 (counterexample).  With two tags that begin with ["slack:"] the
    Slack channel id is not empty, although it is not the case that exactly
    one tag begins with the prefix. *)
Lemma slackChannelId_with_two_slack_tags :
  let tags := ["slack:C123"; "slack:C456"] in
  slackChannelId (Meta.mk None None (Some tags) None) = "C123" ∧
  slackChannelId (Meta.mk None None (Some tags) None) ≠ "" ∧
  length (filter (fun t => startsWith t "slack:" = true) tags) = 2%nat ∧
  length (filter (fun t => startsWith t "slack:" = true) tags) ≠ 1%nat.
Proof. by vm_compute. Qed.

End slack_channel.

(* ===================================================================== *)
(** ** Failures of the two list fetches *)
(* ===================================================================== *)

Section soft_degrade.
Import Api.
Implicit Types (env : Env) (folderId docId : option string).

Lemma soft_get_logged {A} (endpoint : string → result (response A)) url msg label (dflt : A) :
  delivered (endpoint url) = None →
  ∃ e, ConsoleError label e ∈
    trace (try_catch
             (let* response := fetch endpoint "GET" url in
              match response with
              | NotOk _ => throw (Error msg)
              | Ok json => settle json
              end)
             (fun error => console_error label error ;; ret dflt)).
Proof.
  intros H. rewrite trace_try_catch, outcome_bind, trace_bind. simpl.
  destruct (endpoint url) as [[[a|e]|j]|e]; simpl in *; [done|..];
    eexists; apply list_elem_of_In; simpl; eauto.
Qed.

Lemma soft_get_requests {A} (endpoint : string → result (response A)) url msg label (dflt : A) u :
  Fetch "GET" u ∈
    trace (try_catch
             (let* response := fetch endpoint "GET" url in
              match response with
              | NotOk _ => throw (Error msg)
              | Ok json => settle json
              end)
             (fun error => console_error label error ;; ret dflt)) →
  u = url.
Proof.
  rewrite trace_try_catch, outcome_bind, trace_bind. simpl.
  destruct (endpoint url) as [[[a|e]|j]|e]; simpl;
    intros H; apply list_elem_of_In in H; simpl in H; intuition congruence.
Qed.

Lemma getDocuments_failed env folderId :
  (∀ url, Fetch "GET" url ∈ trace (getDocuments env folderId) →
          delivered (GET_documents env url) = None) →
  outcome (getDocuments env folderId) = Fulfilled {| documents := Some [] |} ∧
  ∃ e, ConsoleError "Error fetching documents:" e ∈ trace (getDocuments env folderId).
Proof.
  intros H. destruct (getDocuments_outcome env folderId) as (url & Hurl & Hout).
  specialize (H url Hurl). rewrite Hout, H. split; [done|].
  unfold getDocuments in *. apply soft_get_logged.
  by rewrite (soft_get_requests _ _ _ _ _ _ Hurl) in H.
Qed.

Lemma getAllMetadata_failed env folderId :
  (∀ url, Fetch "GET" url ∈ trace (getAllMetadata env folderId) →
          delivered (GET_metadata_all env url) = None) →
  outcome (getAllMetadata env folderId)
  = Fulfilled {| meta_documents := Some []; meta_count := Some 0%Z |} ∧
  ∃ e, ConsoleError "Error fetching metadata:" e ∈ trace (getAllMetadata env folderId).
Proof.
  intros H. destruct (getAllMetadata_outcome env folderId) as (url & Hurl & Hout).
  specialize (H url Hurl). rewrite Hout, H. split; [done|].
  unfold getAllMetadata in *. apply soft_get_logged.
  by rewrite (soft_get_requests _ _ _ _ _ _ Hurl) in H.
Qed.

(** C6.  Neither list fetch ever rejects.  When the document-list fetch
    fails, the empty list is substituted, the failure is a console line,
    and the aggregation returns the empty Channel sequence.  When the
    metadata-list fetch fails, the empty list is substituted, the failure is
    a console line, and the aggregation settles exactly as it does when the
    service delivers an empty metadata list. *)
Theorem list_fetch_failures_degrade env folderId :
  (∃ r, outcome (getDocuments env folderId) = Fulfilled r) ∧
  (∃ r, outcome (getAllMetadata env folderId) = Fulfilled r) ∧
  ((∀ url, Fetch "GET" url ∈ trace (getDocuments env folderId) →
           delivered (GET_documents env url) = None) →
   outcome (getDocuments env folderId) = Fulfilled {| documents := Some [] |} ∧
   (∃ e, ConsoleError "Error fetching documents:" e ∈ trace (getDocuments env folderId)) ∧
   outcome (getChannelsData env folderId) = Fulfilled []) ∧
  ((∀ url, Fetch "GET" url ∈ trace (getAllMetadata env folderId) →
           delivered (GET_metadata_all env url) = None) →
   outcome (getAllMetadata env folderId)
   = Fulfilled {| meta_documents := Some []; meta_count := Some 0%Z |} ∧
   (∃ e, ConsoleError "Error fetching metadata:" e ∈ trace (getAllMetadata env folderId)) ∧
   outcome (getChannelsData env folderId)
   = outcome (getChannelsData
                (with_metadata env
                   (fun _ => Fulfilled (Ok (Fulfilled {| meta_documents := Some [];
                                                         meta_count := Some 0%Z |}))))
                folderId)).
Proof.
  split; [|split; [|split]].
  - destruct (getDocuments_outcome env folderId) as (url & _ & ->). by eexists.
  - destruct (getAllMetadata_outcome env folderId) as (url & _ & ->). by eexists.
  - intros H. destruct (getDocuments_failed env folderId H) as [Hout Hlog].
    split; [done|]. split; [done|].
    rewrite getChannelsData_outcome. unfold documents_of. by rewrite Hout.
  - intros H. destruct (getAllMetadata_failed env folderId H) as [Hout Hlog].
    split; [done|]. split; [done|].
    rewrite !getChannelsData_outcome.
    change (documents_of (with_metadata env _) folderId) with (documents_of env folderId).
    assert (Hm : metadata_of env folderId = []) by (unfold metadata_of; by rewrite Hout).
    assert (Hm' : metadata_of (with_metadata env
                   (fun _ => Fulfilled (Ok (Fulfilled {| meta_documents := Some [];
                                                         meta_count := Some 0%Z |}))))
                   folderId = []).
    { unfold metadata_of.
      destruct (getAllMetadata_outcome (with_metadata env
                   (fun _ => Fulfilled (Ok (Fulfilled {| meta_documents := Some [];
                                                         meta_count := Some 0%Z |}))))
                   folderId) as (url & _ & ->). done. }
    rewrite Hm, Hm'. done.
Qed.

Lemma list_fetch_failures_degrade_witness :
  (∀ url, delivered (GET_documents Example.lists_down url) = None) ∧
  outcome (getChannelsData Example.lists_down None) = Fulfilled [].
Proof.
  split; [reflexivity|].
  destruct (list_fetch_failures_degrade Example.lists_down None) as (_ & _ & Hdocs & _).
  apply Hdocs. intros url _. reflexivity.
Defined.

End soft_degrade.

(* ===================================================================== *)
(** ** The time-age formatter *)
(* ===================================================================== *)

Section format_time_ago.
Import Api.
Open Scope Z_scope.

Lemma formatTimeAgo_elapsed now date :
  formatTimeAgo now date = formatTimeAgo (now - date) 0.
Proof. unfold formatTimeAgo. by rewrite Z.sub_0_r. Qed.

(** C5.  The formatted age depends on the elapsed time only.  Let [delta]
    be the elapsed time in whole seconds, not negative.  Under 60 the age
    is ["just now"]; from 60 and under 3600 it counts the minutes
    [delta / 60]; from 3600 and under 86400 the hours [delta / 3600]; from
    86400 on the days [delta / 86400]; the quotients are floored and the
    unit is in the singular exactly when the count is 1.  At 0 s, 59 s,
    60 s, 3599 s, 3600 s and 86400 s the values are those of the examples. *)
Theorem formatTimeAgo_buckets now date :
  let delta := (now - date) / 1000 in
  let ago (n : Z) (unit : string) :=
    pretty n +:+ " " +:+ unit +:+ (if decide (n = 1) then "" else "s") +:+ " ago" in
  0 <= delta →
  (∀ now' date', now' - date' = now - date →
     formatTimeAgo now' date' = formatTimeAgo now date) ∧
  (delta < 60 → formatTimeAgo now date = "just now") ∧
  (60 <= delta < 3600 → formatTimeAgo now date = ago (delta / 60) "minute") ∧
  (3600 <= delta < 86400 → formatTimeAgo now date = ago (delta / 3600) "hour") ∧
  (86400 <= delta → formatTimeAgo now date = ago (delta / 86400) "day") ∧
  formatTimeAgo (date + 0 * 1000) date = "just now" ∧
  formatTimeAgo (date + 59 * 1000) date = "just now" ∧
  formatTimeAgo (date + 60 * 1000) date = "1 minute ago" ∧
  formatTimeAgo (date + 3599 * 1000) date = "59 minutes ago" ∧
  formatTimeAgo (date + 3600 * 1000) date = "1 hour ago" ∧
  formatTimeAgo (date + 86400 * 1000) date = "1 day ago".
Proof.
  intros delta ago Hdelta.
  assert (Hex : ∀ d, formatTimeAgo (date + d) date = formatTimeAgo d 0).
  { intros d. rewrite formatTimeAgo_elapsed. f_equal. lia. }
  assert (Hh : delta / 60 / 60 = delta / 3600) by (rewrite Z.div_div by lia; done).
  assert (Hd : delta / 60 / 60 / 24 = delta / 86400) by (rewrite Hh, Z.div_div by lia; done).
  split; [|split; [|split; [|split; [|split]]]].
  - intros now' date' H. rewrite (formatTimeAgo_elapsed now'), (formatTimeAgo_elapsed now).
    by rewrite H.
  - intros H. unfold formatTimeAgo. fold delta.
    destruct (Z.ltb_spec delta 60); [done | lia].
  - intros [H1 H2]. unfold formatTimeAgo. fold delta.
    destruct (Z.ltb_spec delta 60); [lia |].
    assert (delta / 60 < 60) by (apply Z.div_lt_upper_bound; lia).
    destruct (Z.ltb_spec (delta / 60) 60); [| lia].
    unfold ago. destruct (Z.eqb_spec (delta / 60) 1); case_decide; done.
  - intros [H1 H2]. unfold formatTimeAgo. fold delta.
    destruct (Z.ltb_spec delta 60); [lia |].
    assert (60 <= delta / 60) by (apply Z.div_le_lower_bound; lia).
    destruct (Z.ltb_spec (delta / 60) 60); [lia |].
    rewrite Hh.
    assert (delta / 3600 < 24) by (apply Z.div_lt_upper_bound; lia).
    destruct (Z.ltb_spec (delta / 3600) 24); [| lia].
    unfold ago. destruct (Z.eqb_spec (delta / 3600) 1); case_decide; done.
  - intros H1. unfold formatTimeAgo. fold delta.
    destruct (Z.ltb_spec delta 60); [lia |].
    assert (60 <= delta / 60) by (apply Z.div_le_lower_bound; lia).
    destruct (Z.ltb_spec (delta / 60) 60); [lia |].
    assert (24 <= delta / 60 / 60) by (rewrite Hh; apply Z.div_le_lower_bound; lia).
    destruct (Z.ltb_spec (delta / 60 / 60) 24); [lia |].
    rewrite Hd.
    unfold ago. destruct (Z.eqb_spec (delta / 86400) 1); case_decide; done.
  - rewrite !Hex. by vm_compute.
Qed.

Lemma formatTimeAgo_buckets_witness :
  0 <= (1767225600000 - 1767222000000) / 1000 ∧
  formatTimeAgo 1767225600000 1767222000000 = "1 hour ago".
Proof.
  split; [by vm_compute|].
  destruct (formatTimeAgo_buckets 1767225600000 1767222000000) as (_ & _ & _ & Hh & _);
    [by vm_compute|].
  rewrite Hh; [reflexivity | by vm_compute].
Defined.

(** C10.  A date later than the clock reading, that is a negative elapsed
    time, is formatted as ["just now"]. *)
Theorem formatTimeAgo_future now date :
  now < date → formatTimeAgo now date = "just now".
Proof.
  intros H. unfold formatTimeAgo.
  assert ((now - date) / 1000 < 0) by (apply Z.div_lt_upper_bound; lia).
  destruct (Z.ltb_spec ((now - date) / 1000) 60); [done | lia].
Qed.

Lemma formatTimeAgo_future_witness :
  1767222000000 < 1767225600000 ∧ formatTimeAgo 1767222000000 1767225600000 = "just now".
Proof. split; [lia|]. apply formatTimeAgo_future. lia. Defined.

End format_time_ago.

(* ===================================================================== *)
(** ** Invariants of traces; the read-only calls *)
(* ===================================================================== *)

Section trace_invariants.
Context (P : event → Prop).

Lemma Forall_trace_bind {A B} (m : IO A) (k : A → IO B) :
  Forall P (trace m) → (∀ a, Forall P (trace (k a))) → Forall P (trace (bind m k)).
Proof.
  intros Hm Hk. rewrite trace_bind. destruct (outcome m); [|done].
  apply Forall_app; auto.
Qed.

Lemma Forall_trace_try_catch {A} (m : IO A) (h : exn → IO A) :
  Forall P (trace m) → (∀ e, Forall P (trace (h e))) → Forall P (trace (try_catch m h)).
Proof.
  intros Hm Hh. rewrite trace_try_catch. destruct (outcome m); [done|].
  apply Forall_app; auto.
Qed.

Lemma Forall_trace_Promise_all {A} (ms : list (IO A)) :
  Forall (fun m => Forall P (trace m)) ms → Forall P (trace (Promise_all ms)).
Proof.
  unfold Promise_all. simpl. induction 1; simpl; [done|]. apply Forall_app; auto.
Qed.

Lemma Forall_trace_Promise_all2 {A B} (m1 : IO A) (m2 : IO B) :
  Forall P (trace m1) → Forall P (trace m2) → Forall P (trace (Promise_all2 m1 m2)).
Proof. intros. unfold Promise_all2. simpl. apply Forall_app; auto. Qed.

Lemma Forall_trace_settle {A} (r : result A) : Forall P (trace (settle r)).
Proof. constructor. Qed.

Lemma Forall_trace_ret {A} (a : A) : Forall P (trace (ret a)).
Proof. constructor. Qed.

Lemma Forall_trace_throw {A} (e : exn) : Forall P (trace (throw (A:=A) e)).
Proof. constructor. Qed.

Lemma Forall_trace_emit (ev : event) : P ev → Forall P (trace (emit ev)).
Proof. intros. by apply Forall_singleton. Qed.

Lemma Forall_trace_fetch {A} (endpoint : string → result (response A)) method url :
  P (Fetch method url) → Forall P (trace (fetch endpoint method url)).
Proof. intros. by apply Forall_singleton. Qed.

End trace_invariants.

Create HintDb quiet.

(** Decomposes a goal [Forall P (trace m)] along the structure of [m]. *)
Ltac trace_all :=
  repeat first
    [ solve [auto with quiet]
    | apply Forall_trace_bind; [| intros ?]
    | apply Forall_trace_try_catch; [| intros ?]
    | apply Forall_trace_Promise_all2
    | apply Forall_trace_settle
    | apply Forall_trace_ret
    | apply Forall_trace_throw
    | apply Forall_trace_emit; reflexivity
    | apply Forall_trace_fetch; reflexivity
    | match goal with
      | |- context [match ?r with Ok _ => _ | NotOk _ => _ end] => destruct r
      | |- context [let '(_, _) := ?p in _] => destruct p
      | |- context [if ?b then _ else _] => destruct b
      end ].

Section quiet_reads.
Import Api Dashboard.
Implicit Types (env : Env) (folderId docId : option string).

Lemma requests_quiet (tr : list event) : Forall quiet tr → requests "POST" tr = [].
Proof.
  induction 1 as [|ev tr Hev _ IH]; [done|].
  change (ev :: tr) with ([ev] ++ tr). unfold requests in *. rewrite omap_app.
  unfold quiet, requests in Hev. by rewrite Hev, IH.
Qed.

Lemma getMessageCount_quiet env teamId : Forall quiet (trace (getMessageCount env teamId)).
Proof. unfold getMessageCount. trace_all. Qed.

Lemma getDocuments_quiet env folderId : Forall quiet (trace (getDocuments env folderId)).
Proof. unfold getDocuments. trace_all. Qed.

Lemma getAllMetadata_quiet env folderId : Forall quiet (trace (getAllMetadata env folderId)).
Proof. unfold getAllMetadata. trace_all. Qed.

Lemma getVersionHistory_quiet env docId : Forall quiet (trace (getVersionHistory env docId)).
Proof. unfold getVersionHistory. trace_all. Qed.

Hint Resolve getMessageCount_quiet getDocuments_quiet getAllMetadata_quiet
  getVersionHistory_quiet : quiet.

Lemma document_task_quiet env mm i doc : Forall quiet (trace (document_task env mm i doc)).
Proof. unfold document_task, fetched_versions. trace_all. Qed.

Lemma getChannelsData_quiet env folderId : Forall quiet (trace (getChannelsData env folderId)).
Proof.
  unfold getChannelsData. trace_all.
  apply Forall_trace_Promise_all, Forall_forall. intros t Ht.
  apply elem_of_lookup_imap in Ht as (pos & doc & -> & _). apply document_task_quiet.
Qed.

Hint Resolve getChannelsData_quiet : quiet.

Lemma fetchDocuments_quiet env s : Forall quiet (trace (fetchDocuments env s)).
Proof. unfold fetchDocuments, getDocumentsData. trace_all. Qed.

End quiet_reads.

(* ===================================================================== *)
(** ** The revert flow *)
(* ===================================================================== *)

Section revert.
Import Api Dashboard.
Implicit Types (env : Env) (docId versionId : option string).

Lemma requests_app method (tr1 tr2 : list event) :
  requests method (tr1 ++ tr2) = requests method tr1 ++ requests method tr2.
Proof. unfold requests. apply omap_app. Qed.

Lemma revertVersion_requests env docId id :
  requests "POST" (trace (revertVersion env docId id))
  = [API_BASE_URL env +:+ "/revert/" +:+ toString docId +:+ "/" +:+ id].
Proof.
  unfold revertVersion. rewrite trace_try_catch, outcome_bind, trace_bind. simpl.
  destruct (POST_revert env _) as [[[a|e]|[b|e]]|e]; reflexivity.
Qed.

(** The POST requests of one call of the handler, once the question it
    asks has been answered. *)
Lemma handleRevertVersion_requests env s docId version versionId :
  requests "POST" (trace (handleRevertVersion env s docId version versionId))
  = if window_confirm env
         ("Are you sure you want to revert to version " +:+ pretty version +:+ "?")
    then [API_BASE_URL env +:+ "/revert/" +:+ toString docId +:+ "/"
            +:+ toString (versionId ||| Some (pretty version))]
    else [].
Proof.
  unfold handleRevertVersion. rewrite trace_bind. unfold confirm at 1 2. simpl.
  destruct (window_confirm env _); simpl; [|done].
  rewrite trace_try_catch, outcome_bind, trace_bind.
  destruct (outcome (revertVersion env docId _)) as [r|e] eqn:Hr.
  - rewrite outcome_bind, trace_bind.
    destruct (outcome (fetchDocuments env s)) as [s'|e].
    + rewrite outcome_bind. simpl.
      rewrite !requests_app, revertVersion_requests,
        (requests_quiet _ (fetchDocuments_quiet env s)). done.
    + simpl. rewrite !requests_app, revertVersion_requests,
        (requests_quiet _ (fetchDocuments_quiet env s)). done.
  - simpl. rewrite !requests_app, revertVersion_requests. done.
Qed.

Lemma handleRevertVersion_asks env s docId version versionId :
  ∃ q, Confirm q ∈ trace (handleRevertVersion env s docId version versionId) ∧
       q = "Are you sure you want to revert to version " +:+ pretty version +:+ "?".
Proof.
  eexists. split; [|reflexivity].
  unfold handleRevertVersion. rewrite trace_bind. unfold confirm at 1 2. simpl.
  left.
Qed.

(** C7.  In a revert that the user confirms, exactly one request goes to
    the revert endpoint.  When a version token is present (and not empty),
    its last path segment is that token, whatever the positional number is;
    it is the positional number, in decimal, only when there is no token.
    A revert that the user declines sends nothing. *)
Theorem revert_prefers_version_token env s docId version versionId :
  let run := handleRevertVersion env s docId version versionId in
  let revert_url id :=
    API_BASE_URL env +:+ "/revert/" +:+ toString docId +:+ "/" +:+ id in
  ((∀ q, Confirm q ∈ trace run → window_confirm env q = true) →
     (∀ token, versionId = Some token → token ≠ "" →
        requests "POST" (trace run) = [revert_url token]) ∧
     (versionId = None ∨ versionId = Some "" →
        requests "POST" (trace run) = [revert_url (pretty version)])) ∧
  ((∀ q, Confirm q ∈ trace run → window_confirm env q = false) →
     requests "POST" (trace run) = []).
Proof.
  intros run revert_url.
  destruct (handleRevertVersion_asks env s docId version versionId) as (q & Hq & ->).
  unfold run. rewrite handleRevertVersion_requests. split.
  - intros Hyes. rewrite (Hyes _ Hq). split.
    + intros token -> Hne. destruct token; done.
    + intros [-> | ->]; done.
  - intros Hno. by rewrite (Hno _ Hq).
Qed.

Lemma revert_prefers_version_token_witness :
  requests "POST"
    (trace (handleRevertVersion Example.two_documents Example.idle
              (Some "1AbCdEfGhIjKlMn") 2 (Some "77aa")))
  = ["/api/v1/revert/1AbCdEfGhIjKlMn/77aa"].
Proof.
  destruct (revert_prefers_version_token Example.two_documents Example.idle
              (Some "1AbCdEfGhIjKlMn") 2 (Some "77aa")) as [Hyes _].
  destruct Hyes as [Htoken _]; [intros q _; reflexivity|].
  by rewrite (Htoken "77aa").
Defined.

End revert.

(* ===================================================================== *)
(** ** The history view *)
(* ===================================================================== *)

Section sort_facts.
Context {A : Type} (cmp : A → A → Z).
Hypothesis cmp_total : ∀ x y, (cmp x y <= 0)%Z ∨ (cmp y x <= 0)%Z.
Hypothesis cmp_trans : ∀ x y z, (cmp x y <= 0)%Z → (cmp y z <= 0)%Z → (cmp x z <= 0)%Z.

Lemma sort_insert_Permutation x l : sort_insert cmp x l ≡ₚ x :: l.
Proof.
  induction l as [|y l IH]; simpl; [done|].
  destruct (cmp x y <=? 0)%Z; [done|].
  rewrite IH. apply perm_swap.
Qed.

Lemma sort_Permutation l : sort cmp l ≡ₚ l.
Proof.
  induction l as [|x l IH]; simpl; [done|].
  by rewrite sort_insert_Permutation, IH.
Qed.

Lemma sort_insert_StronglySorted x l :
  StronglySorted (fun a b => (cmp a b <= 0)%Z) l →
  StronglySorted (fun a b => (cmp a b <= 0)%Z) (sort_insert cmp x l).
Proof.
  induction 1 as [|y l Hl IH Hy]; simpl; [repeat constructor|].
  destruct (Z.leb_spec (cmp x y) 0) as [Hxy|Hxy].
  - constructor; [by constructor|]. constructor; [done|].
    eapply Forall_impl; [exact Hy|]. intros z Hz. by eapply cmp_trans.
  - constructor; [done|]. rewrite sort_insert_Permutation. constructor; [|done].
    destruct (cmp_total x y); [lia | done].
Qed.

Lemma sort_StronglySorted l : StronglySorted (fun a b => (cmp a b <= 0)%Z) (sort cmp l).
Proof.
  induction l as [|x l IH]; simpl; [constructor|]. by apply sort_insert_StronglySorted.
Qed.

End sort_facts.

Section history_view.
Import Dashboard.

Lemma elem_of_flat_map {A B} (f : A → list B) (l : list A) (y : B) :
  y ∈ flat_map f l ↔ ∃ x, x ∈ l ∧ y ∈ f x.
Proof.
  rewrite list_elem_of_In, in_flat_map. split; intros (x & H1 & H2); exists x;
    by rewrite ?list_elem_of_In in *.
Qed.

(** C8.  The history list is a function of the filter and of the Channel
    collection.  Without a filter it is a rearrangement of the versions of
    all Channels; with a filter, of the versions of the Channels with that
    id; every entry carries the fields of its version and the id and name
    of the Channel that owns it; the list is in descending order of
    timestamp.  A filter that selects only Channels without versions gives
    the empty list. *)
Theorem allVersions_sorted_flattening (selected : option string) (docs : list Channel.t) :
  let tagged doc := map (history_entry doc) (Channel.versions doc) in
  (selected = None ∨ selected = Some "" →
     allVersions selected docs ≡ₚ flat_map tagged docs) ∧
  (∀ id, selected = Some id → id ≠ "" →
     allVersions selected docs
     ≡ₚ flat_map tagged (filter (fun doc => Channel.id doc = Some id) docs)) ∧
  (∀ e, e ∈ allVersions selected docs →
     ∃ doc v, doc ∈ docs ∧ v ∈ Channel.versions doc ∧
       (truthy selected = true → Channel.id doc = selected) ∧
       documentId e = Channel.id doc ∧ documentName e = Channel.name doc ∧
       version e = Version.version v ∧ versionId e = Version.versionId v ∧
       timestamp e = Version.timestamp v ∧ charsAdded e = Version.charsAdded v) ∧
  StronglySorted (fun a b => (timestamp b <= timestamp a)%Z) (allVersions selected docs) ∧
  (∀ id, selected = Some id → id ≠ "" →
     (∀ doc, doc ∈ docs → Channel.id doc = Some id → Channel.versions doc = []) →
     allVersions selected docs = []).
Proof.
  intros tagged.
  assert (Hperm : ∀ id, selected = Some id → id ≠ "" →
            allVersions selected docs
            ≡ₚ flat_map tagged (filter (fun doc => Channel.id doc = Some id) docs)).
  { intros id -> Hid. unfold allVersions.
    destruct id as [|a id]; [done|]. simpl. apply sort_Permutation. }
  assert (Hin : ∀ e, e ∈ allVersions selected docs →
            ∃ doc v, doc ∈ docs ∧ v ∈ Channel.versions doc ∧
              (truthy selected = true → Channel.id doc = selected) ∧
              documentId e = Channel.id doc ∧ documentName e = Channel.name doc ∧
              version e = Version.version v ∧ versionId e = Version.versionId v ∧
              timestamp e = Version.timestamp v ∧ charsAdded e = Version.charsAdded v).
  { intros e He. unfold allVersions in He. rewrite sort_Permutation in He.
    apply elem_of_flat_map in He as (doc & Hdoc & He).
    apply list_elem_of_In, in_map_iff in He as (v & <- & Hv).
    apply list_elem_of_In in Hv. exists doc, v.
    destruct (truthy selected) eqn:Hsel.
    - apply list_elem_of_filter in Hdoc as [Hid Hdoc]. done.
    - done. }
  split; [|split; [exact Hperm|split; [exact Hin|split]]].
  - intros Hsel. apply falsy_spec in Hsel. unfold allVersions. rewrite Hsel.
    apply sort_Permutation.
  - unfold allVersions.
    match goal with |- context [sort ?c ?l] =>
      pose proof (sort_StronglySorted c ltac:(intros; lia) ltac:(intros; lia) l) as Hs;
      induction Hs as [|e l' Hl' IH He]; constructor; [done|]
    end.
    eapply Forall_impl; [exact He|]. simpl. intros; lia.
  - intros id Hsel Hid Hempty.
    destruct (allVersions selected docs) as [|e l] eqn:Hl; [done|]. exfalso.
    destruct (Hin e) as (doc & v & Hdoc & Hv & Hsame & _); [left|].
    rewrite (Hempty doc Hdoc) in Hv; [by apply elem_of_nil in Hv|].
    rewrite Hsame; [done|]. subst selected. by destruct id.
Qed.

Lemma allVersions_sorted_flattening_witness :
  ∃ cs, outcome (Api.getChannelsData Example.two_documents None) = Fulfilled cs ∧
        length cs = 2%nat ∧
        timestamp <$> allVersions None cs
          = [1767100000000; 1767050000000; 1767000000000]%Z ∧
        allVersions (Some "2ZyXwVuTsRqPoNm") cs = [].
Proof.
  eexists. split; [vm_compute; reflexivity|]. split; [reflexivity|].
  split; [reflexivity|].
  match goal with |- allVersions ?sel ?cs = [] =>
    destruct (allVersions_sorted_flattening sel cs) as (_ & _ & _ & _ & Hempty)
  end.
  apply (Hempty "2ZyXwVuTsRqPoNm"); [reflexivity | done |].
  intros doc Hdoc Hid.
  repeat (apply elem_of_cons in Hdoc as [-> | Hdoc]); [done | done |].
  by apply elem_of_nil in Hdoc.
Defined.

End history_view.

(* ===================================================================== *)
(** ** The refresh *)
(* ===================================================================== *)

Section refresh.
Import Api Dashboard Handlers.
Implicit Types (env : Env) (s : State).

Lemma getMessageCount_outcome env teamId :
  ∃ url, outcome (getMessageCount env teamId)
         = Fulfilled (default {| count := Some 0%Z |} (delivered (GET_messages_count env url))).
Proof. unfold getMessageCount. eexists. apply soft_get_outcome. Qed.

Lemma fetchDocuments_outcome env s :
  outcome (fetchDocuments env s) =
  match outcome (getChannelsData env None), outcome (getMessageCount env None) with
  | Fulfilled cs, Fulfilled mc =>
      Fulfilled (setLoading false
                   (setTotalMessageCount (default 0%Z (count mc))
                      (setDocuments cs (setError None (setLoading true s)))))
  | _, _ =>
      Fulfilled (setLoading false
                   (setDocuments []
                      (setError
                         (Some "Failed to load documents. Please check if the backend API is running.")
                         (setError None (setLoading true s)))))
  end.
Proof.
  unfold fetchDocuments, getDocumentsData.
  rewrite outcome_try_catch, outcome_bind. unfold Promise_all2. simpl.
  destruct (getMessageCount_outcome env None) as [url ->].
  by destruct (outcome (getChannelsData env None)).
Qed.

(** X1.  A refresh never rejects and always ends with [loading] off; it
    keeps the tab, the history filter and [refreshing].  When the
    aggregation returns, the documents are its Channels and there is no
    error; when it rejects, the document list is emptied, the error banner
    is set and the message counter keeps its value. *)
Theorem fetchDocuments_settles env s :
  ∃ s', outcome (fetchDocuments env s) = Fulfilled s' ∧
    loading s' = false ∧
    activeTab s' = activeTab s ∧
    selectedDocumentForHistory s' = selectedDocumentForHistory s ∧
    refreshing s' = refreshing s ∧
    (error s' ≠ None → documents s' = []) ∧
    match outcome (getChannelsData env None) with
    | Fulfilled cs => documents s' = cs ∧ error s' = None
    | Rejected _ =>
        documents s' = [] ∧
        error s' = Some "Failed to load documents. Please check if the backend API is running." ∧
        totalMessageCount s' = totalMessageCount s
    end.
Proof.
  rewrite fetchDocuments_outcome.
  destruct (getMessageCount_outcome env None) as [url ->].
  destruct (outcome (getChannelsData env None)); eexists; (split; [reflexivity|]); simpl;
    repeat split; done.
Qed.

Lemma fetchDocuments_settles_witness :
  ∃ s', outcome (fetchDocuments Example.two_documents Example.idle) = Fulfilled s' ∧
        loading s' = false ∧ error s' = None ∧ length (documents s') = 2%nat ∧
        totalMessageCount s' = 42%Z.
Proof.
  destruct (fetchDocuments_settles Example.two_documents Example.idle)
    as (s' & Hs' & Hl & _ & _ & _ & _ & Hcase).
  exists s'. split; [exact Hs'|]. split; [exact Hl|].
  vm_compute in Hs'. injection Hs' as <-. by vm_compute.
Defined.


(** X2.  The message counter is soft: with another message-count endpoint,
    failing or not, a refresh gives the same documents, error and flags;
    when that endpoint fails and the aggregation returns, the counter
    shows 0. *)
Theorem message_count_is_soft env s endpoint :
  ∃ s1 s2,
    outcome (fetchDocuments env s) = Fulfilled s1 ∧
    outcome (fetchDocuments (with_messages_count env endpoint) s) = Fulfilled s2 ∧
    documents s2 = documents s1 ∧ error s2 = error s1 ∧ loading s2 = loading s1 ∧
    ((∀ url, delivered (endpoint url) = None) →
     ∀ cs, outcome (getChannelsData env None) = Fulfilled cs →
           totalMessageCount s2 = 0%Z).
Proof.
  rewrite !fetchDocuments_outcome.
  change (outcome (getChannelsData (with_messages_count env endpoint) None))
    with (outcome (getChannelsData env None)).
  destruct (getMessageCount_outcome env None) as [url ->].
  destruct (getMessageCount_outcome (with_messages_count env endpoint) None) as [url' ->].
  destruct (outcome (getChannelsData env None)) as [cs|e];
    eexists _, _; (split; [reflexivity|]); (split; [reflexivity|]); simpl;
    repeat split; try done.
  intros Hdown cs' _. by rewrite Hdown.
Qed.

Lemma message_count_is_soft_witness :
  ∃ s2,
    outcome (fetchDocuments
               (with_messages_count Example.two_documents
                  (fun _ => Rejected (TypeError "Failed to fetch")))
               Example.idle) = Fulfilled s2 ∧
    length (documents s2) = 2%nat ∧ error s2 = None ∧ totalMessageCount s2 = 0%Z.
Proof.
  destruct (message_count_is_soft Example.two_documents Example.idle
              (fun _ => Rejected (TypeError "Failed to fetch")))
    as (s1 & s2 & H1 & H2 & Hd & He & _ & Hzero).
  exists s2. split; [exact H2|].
  vm_compute in H1. injection H1 as <-.
  rewrite Hd, He. split; [reflexivity|]. split; [reflexivity|].
  eapply Hzero; [reflexivity | by vm_compute].
Defined.

End refresh.

(* ===================================================================== *)
(** ** The handlers that change the remote state *)
(* ===================================================================== *)

(** Decomposes a goal [Forall P (trace m)] and closes the leaves by
    computation. *)
Ltac trace_leaves :=
  repeat first
    [ assumption
    | apply Forall_trace_bind; [| intros ?]
    | apply Forall_trace_try_catch; [| intros ?]
    | apply Forall_trace_Promise_all2
    | apply Forall_trace_settle
    | apply Forall_trace_ret
    | apply Forall_trace_throw
    | apply Forall_trace_emit; done
    | apply Forall_trace_fetch; done
    | match goal with
      | |- context [match ?r with Ok _ => _ | NotOk _ => _ end] => destruct r
      | |- context [let '(_, _) := ?p in _] => destruct p
      | |- context [if ?b then _ else _] => destruct b
      end ].

Section trace_shapes.
Import Api ApiCalls Dashboard Handlers.
Implicit Types (env : Env) (svc : Service) (s : State).

Lemma omap_none {A B} (f : A → option B) (l : list A) :
  Forall (fun x => f x = None) l → omap f l = [].
Proof. induction 1 as [|x l Hx _ IH]; simpl; [done|]. by rewrite Hx. Qed.

Lemma reading_no_alert tr : Forall reading tr → alerts tr = [].
Proof.
  intros H. apply omap_none. eapply Forall_impl; [exact H|]. by intros [].
Qed.

Lemma posting_no_alert tr : Forall posting tr → alerts tr = [].
Proof.
  intros H. apply omap_none. eapply Forall_impl; [exact H|]. by intros [].
Qed.

Lemma posting_no_get tr : Forall posting tr → requests "GET" tr = [].
Proof.
  intros H. apply omap_none. eapply Forall_impl; [exact H|].
  intros [m u| | | |]; simpl; try done. by intros ->.
Qed.

Lemma reading_no_post tr : Forall reading tr → requests "POST" tr = [].
Proof.
  intros H. apply omap_none. eapply Forall_impl; [exact H|].
  intros [m u| | | |]; simpl; try done. by intros ->.
Qed.

Lemma alerts_app (tr1 tr2 : list event) : alerts (tr1 ++ tr2) = alerts tr1 ++ alerts tr2.
Proof. apply omap_app. Qed.

Lemma getChannelsData_reading env folderId :
  Forall reading (trace (getChannelsData env folderId)).
Proof.
  unfold getChannelsData, getDocuments, getAllMetadata. trace_leaves.
  apply Forall_trace_Promise_all, Forall_forall. intros t Ht.
  apply elem_of_lookup_imap in Ht as (pos & doc & -> & _).
  unfold document_task, fetched_versions, getVersionHistory. trace_leaves.
Qed.

Lemma fetchDocuments_reading env s : Forall reading (trace (fetchDocuments env s)).
Proof.
  pose proof (getChannelsData_reading env None).
  unfold fetchDocuments, getDocumentsData, getMessageCount. trace_leaves.
Qed.

Lemma forceUpdate_posting svc docId : Forall posting (trace (forceUpdate svc docId)).
Proof. unfold forceUpdate. trace_leaves. Qed.

Lemma syncDriveFolder_posting svc folderId :
  Forall posting (trace (syncDriveFolder svc folderId)).
Proof. unfold syncDriveFolder. trace_leaves. Qed.

Lemma revertVersion_posting env docId id : Forall posting (trace (revertVersion env docId id)).
Proof. unfold revertVersion. trace_leaves. Qed.

End trace_shapes.

Section mutations.
Import Api ApiCalls Dashboard Handlers.
Implicit Types (env : Env) (svc : Service) (s : State).

Lemma fetchDocuments_fulfilled env s :
  ∃ s', outcome (fetchDocuments env s) = Fulfilled s' ∧
        loading s' = false ∧ refreshing s' = refreshing s.
Proof.
  rewrite fetchDocuments_outcome.
  destruct (outcome (getChannelsData env None)), (outcome (getMessageCount env None));
    by eexists.
Qed.

Lemma refreshDocuments_outcome env s :
  ∃ s', outcome (fetchDocuments env (setRefreshing true s)) = Fulfilled s' ∧
        outcome (refreshDocuments env s) = Fulfilled (setRefreshing false s') ∧
        loading s' = false.
Proof.
  destruct (fetchDocuments_fulfilled env (setRefreshing true s)) as (s' & Hs' & Hl & _).
  exists s'. split; [done|]. split; [|done].
  unfold refreshDocuments. by rewrite outcome_bind, Hs'.
Qed.

(** How a resync runs, by the outcome of the sync request. *)
Lemma handleResyncDrive_run svc s :
  match outcome (syncDriveFolder svc None) with
  | Rejected e =>
      outcome (handleResyncDrive svc s) = Fulfilled (setRefreshing false s) ∧
      trace (handleResyncDrive svc s)
      = trace (syncDriveFolder svc None)
        ++ [ConsoleError "Error syncing Drive:" e; Alert ("Failed to sync Drive: " +:+ message e)]
  | Fulfilled _ =>
      outcome (handleResyncDrive svc s) = outcome (refreshDocuments (core svc) s) ∧
      trace (handleResyncDrive svc s)
      = trace (syncDriveFolder svc None)
        ++ trace (fetchDocuments (core svc) (setRefreshing true s))
        ++ [Alert "Google Drive documents synced successfully!"]
  end.
Proof.
  unfold handleResyncDrive.
  destruct (refreshDocuments_outcome (core svc) s) as (s' & Hs' & Hr & _).
  rewrite outcome_bind, trace_bind, outcome_try_catch, trace_try_catch.
  rewrite !outcome_bind, !trace_bind.
  destruct (outcome (syncDriveFolder svc None)) as [j|e].
  - rewrite ?outcome_bind, ?trace_bind, Hs', Hr. simpl.
    split; [done|]. by rewrite ?app_nil_r, <- ?app_assoc.
  - simpl. split; [done|]. by rewrite ?app_nil_r, <- ?app_assoc.
Qed.

(** X3.  Started with [loading] off, a refresh and a resync both end with
    [loading] and [refreshing] off, whatever the service does: the two
    buttons, disabled while either flag is on, are enabled again. *)
Theorem refresh_and_resync_end_unlocked svc s :
  loading s = false →
  (∃ s', outcome (refreshDocuments (core svc) s) = Fulfilled s' ∧
         loading s' = false ∧ refreshing s' = false) ∧
  (∃ s', outcome (handleResyncDrive svc s) = Fulfilled s' ∧
         loading s' = false ∧ refreshing s' = false).
Proof.
  intros Hl.
  destruct (refreshDocuments_outcome (core svc) s) as (s' & Hs' & Hr & Hl').
  split; [by eexists|].
  pose proof (handleResyncDrive_run svc s) as Hrun.
  destruct (outcome (syncDriveFolder svc None)); destruct Hrun as [-> _].
  - rewrite Hr. by eexists.
  - by eexists.
Qed.

Lemma refresh_and_resync_end_unlocked_witness :
  loading Example.idle = false ∧
  ∃ s', outcome (handleResyncDrive Sample.refusing Example.idle) = Fulfilled s' ∧
        loading s' = false ∧ refreshing s' = false.
Proof.
  split; [reflexivity|].
  exact (proj2 (refresh_and_resync_end_unlocked Sample.refusing Example.idle eq_refl)).
Defined.

Lemma handleResyncDrive_failed svc s e :
  outcome (syncDriveFolder svc None) = Rejected e →
  outcome (handleResyncDrive svc s) = Fulfilled (setRefreshing false s) ∧
  requests "GET" (trace (handleResyncDrive svc s)) = [] ∧
  alerts (trace (handleResyncDrive svc s)) = ["Failed to sync Drive: " +:+ message e].
Proof.
  intros He. pose proof (handleResyncDrive_run svc s) as Hrun.
  pose proof (syncDriveFolder_posting svc None) as Hsync.
  rewrite He in Hrun. destruct Hrun as [-> ->]. split; [done|].
  rewrite requests_app, alerts_app, (posting_no_get _ Hsync), (posting_no_alert _ Hsync).
  done.
Qed.

(** X4.  A resync whose sync request fails changes nothing but the
    [refreshing] flag: no refresh is requested, and one alert gives the
    error's message.  A resync whose sync request succeeds ends in the
    state of a plain refresh and gives the success alert, also when that
    refresh ended in the error banner. *)
Theorem handleResyncDrive_outcomes svc s :
  match outcome (syncDriveFolder svc None) with
  | Rejected e =>
      outcome (handleResyncDrive svc s) = Fulfilled (setRefreshing false s) ∧
      requests "GET" (trace (handleResyncDrive svc s)) = [] ∧
      alerts (trace (handleResyncDrive svc s)) = ["Failed to sync Drive: " +:+ message e]
  | Fulfilled _ =>
      outcome (handleResyncDrive svc s) = outcome (refreshDocuments (core svc) s) ∧
      alerts (trace (handleResyncDrive svc s))
      = ["Google Drive documents synced successfully!"]
  end.
Proof.
  pose proof (handleResyncDrive_run svc s) as Hrun.
  pose proof (syncDriveFolder_posting svc None) as Hsync.
  destruct (outcome (syncDriveFolder svc None)) as [j|e] eqn:Hout.
  - destruct Hrun as [-> ->]. split; [done|].
    rewrite !alerts_app, (posting_no_alert _ Hsync),
      (reading_no_alert _ (fetchDocuments_reading _ _)). done.
  - by apply handleResyncDrive_failed.
Qed.

Lemma handleResyncDrive_outcomes_witness :
  outcome (handleResyncDrive Sample.refusing Example.idle)
  = Fulfilled (setRefreshing false Example.idle) ∧
  alerts (trace (handleResyncDrive Sample.refusing Example.idle))
  = ["Failed to sync Drive: Failed to sync Drive folder"] ∧
  alerts (trace (handleResyncDrive Sample.accepting Example.idle))
  = ["Google Drive documents synced successfully!"].
Proof.
  pose proof (handleResyncDrive_outcomes Sample.refusing Example.idle) as Hr.
  pose proof (handleResyncDrive_outcomes Sample.accepting Example.idle) as Ha.
  change (outcome (syncDriveFolder Sample.refusing None))
    with (Rejected (A:=Json) (Error "Failed to sync Drive folder")) in Hr.
  change (outcome (syncDriveFolder Sample.accepting None))
    with (Fulfilled {| json_text := "{}" |}) in Ha.
  destruct Hr as (Ho & _ & Hal). destruct Ha as [_ Hal'].
  split; [exact Ho|]. split; [exact Hal | exact Hal'].
Defined.


Lemma handleForceUpdate_run svc s documentId :
  match outcome (forceUpdate svc documentId) with
  | Rejected e =>
      outcome (handleForceUpdate svc s documentId) = Fulfilled s ∧
      trace (handleForceUpdate svc s documentId)
      = trace (forceUpdate svc documentId)
        ++ [ConsoleError "Error forcing update:" e;
            Alert ("Failed to trigger update: " +:+ message e)]
  | Fulfilled _ =>
      match outcome (getChannelsData (core svc) None) with
      | Fulfilled cs =>
          outcome (handleForceUpdate svc s documentId) = Fulfilled (setDocuments cs s) ∧
          trace (handleForceUpdate svc s documentId)
          = trace (forceUpdate svc documentId) ++ trace (getChannelsData (core svc) None)
            ++ [Alert "Document update triggered successfully!"]
      | Rejected e =>
          outcome (handleForceUpdate svc s documentId) = Fulfilled s ∧
          trace (handleForceUpdate svc s documentId)
          = trace (forceUpdate svc documentId) ++ trace (getChannelsData (core svc) None)
            ++ [ConsoleError "Error forcing update:" e;
                Alert ("Failed to trigger update: " +:+ message e)]
      end
  end.
Proof.
  unfold handleForceUpdate, getDocumentsData.
  rewrite outcome_try_catch, trace_try_catch, !outcome_bind, !trace_bind.
  destruct (outcome (forceUpdate svc documentId)) as [j|e].
  - rewrite ?outcome_bind, ?trace_bind.
    destruct (outcome (getChannelsData (core svc) None)) as [cs|e]; simpl;
      (split; [done|]); by rewrite ?app_nil_r, <- ?app_assoc.
  - simpl. split; [done|]. by rewrite ?app_nil_r, <- ?app_assoc.
Qed.

Lemma handleForceUpdate_failed svc s documentId e :
  outcome (forceUpdate svc documentId) = Rejected e →
  outcome (handleForceUpdate svc s documentId) = Fulfilled s ∧
  requests "GET" (trace (handleForceUpdate svc s documentId)) = [] ∧
  alerts (trace (handleForceUpdate svc s documentId))
  = ["Failed to trigger update: " +:+ message e].
Proof.
  intros He. pose proof (handleForceUpdate_run svc s documentId) as Hrun.
  pose proof (forceUpdate_posting svc documentId) as Hpost.
  rewrite He in Hrun. destruct Hrun as [-> ->]. split; [done|].
  rewrite requests_app, alerts_app, (posting_no_get _ Hpost), (posting_no_alert _ Hpost).
  done.
Qed.

(** X5.  A force update whose trigger request fails leaves the state as it
    is, requests no aggregation and alerts with the error's message.  After
    a trigger that succeeds, only the document list is replaced, by the
    Channels of a fresh aggregation: flags, error banner and message
    counter stay.  If that aggregation rejects, the state is left as it is
    and the alert reports a failed trigger although the trigger went
    through. *)
Theorem handleForceUpdate_outcomes svc s documentId :
  requests "POST" (trace (handleForceUpdate svc s documentId))
  = [API_BASE_URL (core svc) +:+ "/trigger"] ∧
  match outcome (forceUpdate svc documentId) with
  | Rejected e =>
      outcome (handleForceUpdate svc s documentId) = Fulfilled s ∧
      requests "GET" (trace (handleForceUpdate svc s documentId)) = [] ∧
      alerts (trace (handleForceUpdate svc s documentId))
      = ["Failed to trigger update: " +:+ message e]
  | Fulfilled _ =>
      match outcome (getChannelsData (core svc) None) with
      | Fulfilled cs =>
          (∃ s', outcome (handleForceUpdate svc s documentId) = Fulfilled s' ∧
                 documents s' = cs ∧ error s' = error s ∧ loading s' = loading s ∧
                 refreshing s' = refreshing s ∧
                 totalMessageCount s' = totalMessageCount s ∧
                 activeTab s' = activeTab s ∧
                 selectedDocumentForHistory s' = selectedDocumentForHistory s) ∧
          alerts (trace (handleForceUpdate svc s documentId))
          = ["Document update triggered successfully!"]
      | Rejected e =>
          outcome (handleForceUpdate svc s documentId) = Fulfilled s ∧
          alerts (trace (handleForceUpdate svc s documentId))
          = ["Failed to trigger update: " +:+ message e]
      end
  end.
Proof.
  pose proof (handleForceUpdate_run svc s documentId) as Hrun.
  pose proof (forceUpdate_posting svc documentId) as Hpost.
  pose proof (getChannelsData_reading (core svc) None) as Hread.
  assert (Hurl : requests "POST" (trace (forceUpdate svc documentId))
                 = [API_BASE_URL (core svc) +:+ "/trigger"]).
  { unfold forceUpdate. rewrite trace_try_catch, outcome_bind, trace_bind. simpl.
    destruct (POST_trigger svc _ documentId) as [[[a|e]|[b|e]]|e]; reflexivity. }
  destruct (outcome (forceUpdate svc documentId)) as [j|e] eqn:Hout.
  - destruct (outcome (getChannelsData (core svc) None)) as [cs|e];
      destruct Hrun as [-> ->];
      rewrite !requests_app, !alerts_app, Hurl, (reading_no_post _ Hread),
        (posting_no_alert _ Hpost), (reading_no_alert _ Hread);
      (split; [done|]); [|done].
    split; [|done]. by eexists.
  - destruct (handleForceUpdate_failed svc s documentId e Hout) as (Ho & Hg & Ha).
    destruct Hrun as [_ Ht]. rewrite Ht at 1.
    rewrite requests_app, Hurl. done.
Qed.

Lemma handleForceUpdate_outcomes_witness :
  requests "POST"
    (trace (handleForceUpdate Sample.accepting Example.idle (Some "1AbCdEfGhIjKlMn")))
  = ["/api/v1/trigger"] ∧
  ∃ s', outcome (handleForceUpdate Sample.accepting Example.idle (Some "1AbCdEfGhIjKlMn"))
        = Fulfilled s' ∧
        length (documents s') = 2%nat ∧ loading s' = false.
Proof.
  pose proof (handleForceUpdate_outcomes Sample.accepting Example.idle
                (Some "1AbCdEfGhIjKlMn")) as [Hpost Hout].
  split; [exact Hpost|].
  change (outcome (forceUpdate Sample.accepting (Some "1AbCdEfGhIjKlMn")))
    with (Fulfilled {| json_text := "{}" |}) in Hout.
  destruct (outcome (getChannelsData (core Sample.accepting) None)) as [cs|e] eqn:Hcs;
    [| by vm_compute in Hcs].
  destruct Hout as [(s' & Hs' & Hd & _ & Hl & _) _].
  exists s'. split; [exact Hs'|]. rewrite Hd, Hl.
  vm_compute in Hcs. by injection Hcs as <-.
Defined.


Lemma revertVersion_rejected_trace env docId id e :
  outcome (revertVersion env docId id) = Rejected e →
  ∀ s version versionId,
    toString (versionId ||| Some (pretty version)) = id →
    window_confirm env
      ("Are you sure you want to revert to version " +:+ pretty version +:+ "?") = true →
    outcome (handleRevertVersion env s docId version versionId) = Fulfilled s ∧
    trace (handleRevertVersion env s docId version versionId)
    = Confirm ("Are you sure you want to revert to version " +:+ pretty version +:+ "?")
      :: trace (revertVersion env docId id)
      ++ [ConsoleError "Error reverting version:" e;
          Alert ("Failed to revert version: " +:+ message e)].
Proof.
  intros He s version versionId <- Hyes.
  unfold handleRevertVersion. rewrite outcome_bind, trace_bind.
  unfold confirm at 1 2 3. simpl. rewrite Hyes. simpl.
  rewrite outcome_try_catch, trace_try_catch, outcome_bind, trace_bind, He. simpl.
  split; [done|]. by rewrite ?app_nil_r, <- ?app_assoc.
Qed.

Lemma revertVersion_fulfilled_trace env docId id r :
  outcome (revertVersion env docId id) = Fulfilled r →
  ∀ s version versionId,
    toString (versionId ||| Some (pretty version)) = id →
    window_confirm env
      ("Are you sure you want to revert to version " +:+ pretty version +:+ "?") = true →
    outcome (handleRevertVersion env s docId version versionId)
    = outcome (fetchDocuments env s) ∧
    trace (handleRevertVersion env s docId version versionId)
    = Confirm ("Are you sure you want to revert to version " +:+ pretty version +:+ "?")
      :: trace (revertVersion env docId id) ++ trace (fetchDocuments env s)
      ++ [Alert ("Successfully reverted to version " +:+ pretty version)].
Proof.
  intros Hr s version versionId <- Hyes.
  destruct (fetchDocuments_fulfilled env s) as (s' & Hs' & _).
  unfold handleRevertVersion. rewrite outcome_bind, trace_bind.
  unfold confirm at 1 2 3. simpl. rewrite Hyes. simpl.
  rewrite outcome_try_catch, trace_try_catch, !outcome_bind, !trace_bind, Hr.
  rewrite ?outcome_bind, ?trace_bind, Hs'. simpl.
  split; [done|]. by rewrite ?app_nil_r, <- ?app_assoc.
Qed.

Lemma handleRevertVersion_failed env s docId version versionId e :
  window_confirm env
    ("Are you sure you want to revert to version " +:+ pretty version +:+ "?") = true →
  outcome (revertVersion env docId (toString (versionId ||| Some (pretty version))))
  = Rejected e →
  outcome (handleRevertVersion env s docId version versionId) = Fulfilled s ∧
  requests "GET" (trace (handleRevertVersion env s docId version versionId)) = [] ∧
  alerts (trace (handleRevertVersion env s docId version versionId))
  = ["Failed to revert version: " +:+ message e].
Proof.
  intros Hyes Hout.
  pose proof (revertVersion_posting env docId
                (toString (versionId ||| Some (pretty version)))) as Hpost.
  destruct (revertVersion_rejected_trace _ _ _ _ Hout s version versionId eq_refl Hyes)
    as [Ho Ht].
  rewrite Ho, Ht. split; [done|].
  change (Confirm ?q :: ?l) with ([Confirm q] ++ l).
  rewrite !requests_app, !alerts_app, (posting_no_get _ Hpost),
    (posting_no_alert _ Hpost). done.
Qed.

(** X6.  A revert that the user declines does nothing but ask.  A
    confirmed revert whose request fails leaves the state as it is,
    requests no refresh and alerts with the error's message.  A confirmed
    revert whose request succeeds ends in the state of a refresh and
    alerts with the positional version number. *)
Theorem handleRevertVersion_outcomes env s docId version versionId :
  let question :=
    "Are you sure you want to revert to version " +:+ pretty version +:+ "?" in
  let run := handleRevertVersion env s docId version versionId in
  (window_confirm env question = false →
     outcome run = Fulfilled s ∧ trace run = [Confirm question]) ∧
  (window_confirm env question = true →
     match outcome (revertVersion env docId (toString (versionId ||| Some (pretty version)))) with
     | Rejected e =>
         outcome run = Fulfilled s ∧ requests "GET" (trace run) = [] ∧
         alerts (trace run) = ["Failed to revert version: " +:+ message e]
     | Fulfilled _ =>
         outcome run = outcome (fetchDocuments env s) ∧
         alerts (trace run) = ["Successfully reverted to version " +:+ pretty version]
     end).
Proof.
  intros question run. split.
  - intros Hno. unfold run, handleRevertVersion. rewrite outcome_bind, trace_bind.
    unfold confirm at 1 2 3. simpl. fold question. by rewrite Hno.
  - intros Hyes.
    pose proof (revertVersion_posting env docId
                  (toString (versionId ||| Some (pretty version)))) as Hpost.
    destruct (outcome (revertVersion env docId _)) as [r|e] eqn:Hout.
    + destruct (revertVersion_fulfilled_trace _ _ _ _ Hout s version versionId eq_refl Hyes)
        as [Ho Ht].
      unfold run. rewrite Ho, Ht. split; [done|].
      change (Confirm ?q :: ?l) with ([Confirm q] ++ l).
      rewrite !alerts_app, (posting_no_alert _ Hpost),
        (reading_no_alert _ (fetchDocuments_reading _ _)). done.
    + by apply handleRevertVersion_failed.
Qed.

Lemma handleRevertVersion_outcomes_witness :
  outcome (handleRevertVersion Example.two_documents Example.idle
             (Some "1AbCdEfGhIjKlMn") 2 (Some "77aa"))
  = outcome (fetchDocuments Example.two_documents Example.idle) ∧
  alerts (trace (handleRevertVersion Example.two_documents Example.idle
                   (Some "1AbCdEfGhIjKlMn") 2 (Some "77aa")))
  = ["Successfully reverted to version 2"].
Proof.
  destruct (handleRevertVersion_outcomes Example.two_documents Example.idle
              (Some "1AbCdEfGhIjKlMn") 2 (Some "77aa")) as [_ Hyes].
  exact (Hyes eq_refl).
Defined.

Lemma forceUpdate_refused svc docId b :
  (∀ url, POST_trigger svc url docId = Fulfilled (NotOk (Fulfilled b))) →
  outcome (forceUpdate svc docId)
  = Rejected (Error (toString (detail b ||| Some "Failed to force update"))).
Proof.
  intros H. unfold forceUpdate. rewrite outcome_try_catch, outcome_bind. simpl.
  by rewrite H.
Qed.

Lemma syncDriveFolder_refused svc folderId b :
  (∀ url, POST_drive_mapping_sync svc url = Fulfilled (NotOk (Fulfilled b))) →
  outcome (syncDriveFolder svc folderId)
  = Rejected (Error (toString (detail b ||| Some "Failed to sync Drive folder"))).
Proof.
  intros H. unfold syncDriveFolder. rewrite outcome_try_catch, outcome_bind. simpl.
  by rewrite H.
Qed.

Lemma revertVersion_refused env docId id b :
  (∀ url, POST_revert env url = Fulfilled (NotOk (Fulfilled b))) →
  outcome (revertVersion env docId id)
  = Rejected (Error (toString (detail b ||| Some "Failed to revert version"))).
Proof.
  intros H. unfold revertVersion. rewrite outcome_try_catch, outcome_bind. simpl.
  by rewrite H.
Qed.

Lemma detail_or_generic (d : option string) (generic : string) :
  (∀ text, d = Some text → text ≠ "" → toString (d ||| Some generic) = text) ∧
  (d = None ∨ d = Some "" → toString (d ||| Some generic) = generic).
Proof.
  split.
  - intros text -> Hne. by destruct text.
  - by intros [-> | ->].
Qed.

(** X7.  When the service refuses a change with an error body, the alert
    of the handler ends with the body's [detail]; when the body has no
    [detail], or an empty one, it ends with the fixed message of the call.
    This holds for the force update, the resync and the confirmed revert. *)
Theorem refusal_detail_reaches_the_alert svc s documentId version versionId
    (d : option string) :
  let shown (generic : string) (text : string) :=
    (∀ t, d = Some t → t ≠ "" → text = t) ∧ (d = None ∨ d = Some "" → text = generic) in
  ((∀ url, POST_trigger svc url documentId = Fulfilled (NotOk (Fulfilled {| detail := d |}))) →
   ∃ text, alerts (trace (handleForceUpdate svc s documentId))
           = ["Failed to trigger update: " +:+ text] ∧
           shown "Failed to force update" text) ∧
  ((∀ url, POST_drive_mapping_sync svc url = Fulfilled (NotOk (Fulfilled {| detail := d |}))) →
   ∃ text, alerts (trace (handleResyncDrive svc s)) = ["Failed to sync Drive: " +:+ text] ∧
           shown "Failed to sync Drive folder" text) ∧
  ((∀ url, POST_revert (core svc) url = Fulfilled (NotOk (Fulfilled {| detail := d |}))) →
   (∀ question, window_confirm (core svc) question = true) →
   ∃ text, alerts (trace (handleRevertVersion (core svc) s documentId version versionId))
           = ["Failed to revert version: " +:+ text] ∧
           shown "Failed to revert version" text).
Proof.
  intros shown. split; [|split].
  - intros H.
    destruct (handleForceUpdate_failed svc s documentId _ (forceUpdate_refused _ _ _ H))
      as (_ & _ & ->).
    eexists. split; [reflexivity|]. apply detail_or_generic.
  - intros H.
    destruct (handleResyncDrive_failed svc s _ (syncDriveFolder_refused _ _ _ H))
      as (_ & _ & ->).
    eexists. split; [reflexivity|]. apply detail_or_generic.
  - intros H Hyes.
    destruct (handleRevertVersion_failed (core svc) s documentId version versionId _
                (Hyes _) (revertVersion_refused _ _ _ _ H)) as (_ & _ & ->).
    eexists. split; [reflexivity|]. apply detail_or_generic.
Qed.

Lemma refusal_detail_reaches_the_alert_witness :
  (∀ url, POST_trigger Sample.refusing url (Some "1AbCdEfGhIjKlMn")
          = Fulfilled (NotOk (Fulfilled {| detail := Some "Document is locked" |}))) ∧
  alerts (trace (handleForceUpdate Sample.refusing Example.idle (Some "1AbCdEfGhIjKlMn")))
  = ["Failed to trigger update: Document is locked"].
Proof.
  split; [reflexivity|].
  destruct (refusal_detail_reaches_the_alert Sample.refusing Example.idle
              (Some "1AbCdEfGhIjKlMn") 1 None (Some "Document is locked"))
    as [Hforce _].
  destruct Hforce as (text & -> & Htext & _); [reflexivity|].
  by rewrite (Htext "Document is locked").
Defined.

End mutations.

(* ===================================================================== *)
(** ** Local removal, the history tab and the overview *)
(* ===================================================================== *)

Section local_views.
Import Api Dashboard Handlers.
Implicit Types (env : Env) (s : State) (docs : list Channel.t).

(** X8.  Removing a document is local and does not last.  Confirmed, it
    sends no request and drops from the list exactly the Channels with
    that id, keeping every other Channel, as often as it occurs and in its
    place; declined, it changes nothing.  Either way the rest of the state
    stays as it is, and the next refresh ends in the state it would have
    ended in without the removal. *)
Theorem handleDeleteDocument_is_local env s documentId :
  let confirmed :=
    window_confirm env "Are you sure you want to remove this document from view?" in
  ∃ s', outcome (handleDeleteDocument env s documentId) = Fulfilled s' ∧
    requests "GET" (trace (handleDeleteDocument env s documentId)) = [] ∧
    requests "POST" (trace (handleDeleteDocument env s documentId)) = [] ∧
    (confirmed = true →
       documents s' = filter (fun doc => Channel.id doc ≠ documentId) (documents s) ∧
       Forall (fun doc => Channel.id doc ≠ documentId) (documents s') ∧
       documents s
       ≡ₚ documents s' ++ filter (fun doc => Channel.id doc = documentId) (documents s)) ∧
    (confirmed = false → s' = s) ∧
    activeTab s' = activeTab s ∧
    selectedDocumentForHistory s' = selectedDocumentForHistory s ∧
    loading s' = loading s ∧ error s' = error s ∧ refreshing s' = refreshing s ∧
    totalMessageCount s' = totalMessageCount s ∧
    outcome (fetchDocuments env s') = outcome (fetchDocuments env s).
Proof.
  intros confirmed. unfold handleDeleteDocument.
  rewrite outcome_bind, trace_bind. unfold confirm. simpl. fold confirmed.
  destruct confirmed; simpl.
  - eexists. split; [reflexivity|]. simpl.
    split; [done|]. split; [done|]. split; [|done].
    intros _. split; [done|]. split.
    + apply Forall_forall. intros doc Hdoc. by apply list_elem_of_filter in Hdoc as [? _].
    + induction (documents s) as [|doc l IH]; [done|].
      rewrite !filter_cons. destruct (decide (Channel.id doc = documentId)) as [Heq|Hne].
      * rewrite decide_False by (by intros H; apply H).
        rewrite <- Permutation_middle. by constructor.
      * rewrite decide_True by done. simpl. by constructor.
  - eexists. split; [reflexivity|]. done.
Qed.

Lemma handleDeleteDocument_is_local_witness :
  Channel.id <$> documents Sample.loaded
  = [Some "1AbCdEfGhIjKlMn"; Some "2ZyXwVuTsRqPoNm"] ∧
  ∃ s', outcome (handleDeleteDocument Example.two_documents Sample.loaded
                   (Some "1AbCdEfGhIjKlMn"))
        = Fulfilled s' ∧
        Channel.id <$> documents s' = [Some "2ZyXwVuTsRqPoNm"] ∧
        requests "POST"
          (trace (handleDeleteDocument Example.two_documents Sample.loaded
                    (Some "1AbCdEfGhIjKlMn"))) = [] ∧
        outcome (fetchDocuments Example.two_documents s')
        = outcome (fetchDocuments Example.two_documents Sample.loaded).
Proof.
  split; [reflexivity|].
  destruct (handleDeleteDocument_is_local Example.two_documents Sample.loaded
              (Some "1AbCdEfGhIjKlMn"))
    as (s' & Hs' & _ & Hpost & Hdrop & _ & _ & _ & _ & _ & _ & _ & Hrefresh).
  exists s'. split; [exact Hs'|]. split; [|split; [exact Hpost | exact Hrefresh]].
  destruct (Hdrop eq_refl) as [-> _]. reflexivity.
Defined.


Lemma foldl_sum {A} (f : A → nat) (l : list A) (a : nat) :
  foldl (fun sum x => sum + f x) a l = a + sum_list (f <$> l).
Proof.
  revert a. induction l as [|x l IH]; intros a; [simpl; lia|].
  rewrite fmap_cons. simpl. rewrite IH. lia.
Qed.

Lemma length_flat_map_sum {A B} (f : A → list B) (l : list A) :
  length (flat_map f l) = sum_list ((fun x => length (f x)) <$> l).
Proof.
  induction l as [|x l IH]; simpl; [done|]. by rewrite length_app, IH.
Qed.

Lemma sum_list_filter_le {A} (f : A → nat) (P : A → Prop) `{∀ x, Decision (P x)}
    (l : list A) :
  sum_list (f <$> filter P l) ≤ sum_list (f <$> l).
Proof.
  induction l as [|x l IH]; [done|].
  rewrite filter_cons. case_decide; rewrite ?fmap_cons; simpl; lia.
Qed.

Lemma filter_all {A} (P : A → Prop) `{∀ x, Decision (P x)} (l : list A) :
  Forall P l → filter P l = l.
Proof.
  induction 1 as [|x l Hx _ IH]; [done|].
  rewrite filter_cons. case_decide; [by rewrite IH | done].
Qed.

Lemma length_allVersions (selected : option string) docs :
  length (allVersions selected docs)
  = totalVersions (if truthy selected
                   then filter (fun doc => Channel.id doc = selected) docs
                   else docs).
Proof.
  unfold allVersions, totalVersions.
  rewrite (Permutation_length (sort_Permutation _ _)), length_flat_map_sum, foldl_sum.
  simpl. f_equal. apply list_fmap_ext. intros i doc _. apply length_map.
Qed.

(** X9.  The History button of a Channel opens the history tab on that
    Channel: with an id that is present and not empty, every entry shown
    belongs to that id and the entries are as many as the versions of the
    Channels with that id.  With an id that is missing or empty the filter
    does not apply, and the tab shows the versions of all Channels. *)
Theorem history_after_handleRevert s (documentId : option string) :
  let s' := handleRevert documentId s in
  let shown := allVersions (selectedDocumentForHistory s') (documents s') in
  activeTab s' = "history" ∧
  documents s' = documents s ∧
  (∀ t, documentId = Some t → t ≠ "" →
     (∀ e, e ∈ shown → Dashboard.documentId e = Some t) ∧
     length shown
     = totalVersions (filter (fun doc => Channel.id doc = Some t) (documents s))) ∧
  (documentId = None ∨ documentId = Some "" →
     length shown = totalVersions (documents s) ∧
     shown ≡ₚ flat_map (fun doc => map (history_entry doc) (Channel.versions doc))
                       (documents s)).
Proof.
  intros s' shown. split; [done|]. split; [done|]. split.
  - intros t -> Ht. split.
    + intros e He. unfold shown, allVersions in He. rewrite sort_Permutation in He.
      simpl in He. destruct t as [|a t]; [done|]. simpl in He.
      apply elem_of_flat_map in He as (doc & Hdoc & He).
      apply list_elem_of_In, in_map_iff in He as (v & <- & _).
      apply list_elem_of_filter in Hdoc as [Hid _]. exact Hid.
    + unfold shown. rewrite length_allVersions. simpl. by destruct t.
  - intros Hfalsy. apply falsy_spec in Hfalsy. split.
    + unfold shown. rewrite length_allVersions. simpl. by rewrite Hfalsy.
    + unfold shown, allVersions. simpl. rewrite Hfalsy. apply sort_Permutation.
Qed.

Lemma history_after_handleRevert_witness :
  let s' := handleRevert (Some "1AbCdEfGhIjKlMn") Sample.loaded in
  let shown := allVersions (selectedDocumentForHistory s') (documents s') in
  Channel.id <$> documents Sample.loaded
  = [Some "1AbCdEfGhIjKlMn"; Some "2ZyXwVuTsRqPoNm"] ∧
  length shown = 3%nat ∧
  Forall (fun e => Dashboard.documentId e = Some "1AbCdEfGhIjKlMn") shown ∧
  Dashboard.version <$> shown = [2; 3; 1]%Z.
Proof.
  intros s' shown. split; [reflexivity|].
  destruct (history_after_handleRevert Sample.loaded (Some "1AbCdEfGhIjKlMn"))
    as (_ & _ & Hsome & _).
  destruct (Hsome "1AbCdEfGhIjKlMn" eq_refl) as [Hall Hlen]; [done|].
  split; [|split].
  - unfold shown, s'. rewrite Hlen. reflexivity.
  - apply Forall_forall. exact Hall.
  - reflexivity.
Defined.

Lemma aggregated_channel env folderId cs c :
  outcome (getChannelsData env folderId) = Fulfilled cs → c ∈ cs →
  Channel.actionCount c = length (Channel.versions c) ∧ Channel.status c = "active".
Proof.
  intros Hcs Hc. apply list_elem_of_lookup in Hc as [i Hc].
  destruct (getChannelsData_lookup _ _ _ Hcs) as [_ Hnth].
  specialize (Hnth i). rewrite Hc in Hnth.
  destruct (documents_of env folderId !! i) as [d|]; [|done].
  rewrite document_task_outcome, fetched_versions_outcome in Hnth.
  destruct (resolved_name _ _ _); [|done]. by injection Hnth as <-.
Qed.

(** X10.  On the Channels of an aggregation the three counters of the
    overview agree with the rest of the dashboard: the documents counted
    are the documents listed by the service, all of them count as active,
    and the version total is the sum of the action counts and the number of
    entries of the unfiltered history; a filtered history never shows
    more. *)
Theorem overview_counters env folderId cs :
  outcome (getChannelsData env folderId) = Fulfilled cs →
  trackedDocuments cs = length (documents_of env folderId) ∧
  activeDocuments cs = trackedDocuments cs ∧
  totalVersions cs = sum_list (Channel.actionCount <$> cs) ∧
  totalVersions cs = length (allVersions None cs) ∧
  ∀ selected, length (allVersions selected cs) ≤ totalVersions cs.
Proof.
  intros Hcs.
  assert (Hlen : totalVersions cs = length (allVersions None cs))
    by (by rewrite length_allVersions).
  split; [|split; [|split; [|split]]].
  - unfold trackedDocuments. by destruct (getChannelsData_lookup _ _ _ Hcs) as [-> _].
  - unfold activeDocuments, trackedDocuments. f_equal. apply filter_all.
    apply Forall_forall. intros c Hc. by destruct (aggregated_channel _ _ _ _ Hcs Hc).
  - unfold totalVersions. rewrite foldl_sum. simpl. f_equal.
    apply list_fmap_ext. intros i c Hc.
    symmetry. eapply aggregated_channel; [exact Hcs|]. by eapply list_elem_of_lookup_2.
  - exact Hlen.
  - intros selected. rewrite length_allVersions. destruct (truthy selected); [|done].
    unfold totalVersions. rewrite !foldl_sum. simpl. apply sum_list_filter_le.
Qed.

Lemma overview_counters_witness :
  ∃ cs, outcome (getChannelsData Example.two_documents None) = Fulfilled cs ∧
        trackedDocuments cs = 2%nat ∧ activeDocuments cs = 2%nat ∧
        totalVersions cs = 3%nat ∧ length (allVersions None cs) = 3%nat.
Proof.
  eexists. split; [vm_compute; reflexivity|].
  match goal with |- trackedDocuments ?l = _ ∧ _ =>
    destruct (overview_counters Example.two_documents None l) as (H1 & H2 & _ & H4 & _);
      [by vm_compute|]
  end.
  rewrite H2, <- H4. by vm_compute.
Defined.

(** X11.  On a Channel of an aggregation the line of the document card
    counts the versions of the Channel, and says "time" exactly when there
    is one. *)
Theorem updatedLine_counts_versions env folderId cs :
  outcome (getChannelsData env folderId) = Fulfilled cs →
  Forall (fun c =>
            let n := length (Channel.versions c) in
            shownActionCount c = n ∧
            updatedLine c = "Document has been updated " +:+ pretty n
                              +:+ (if decide (n = 1%nat) then " time" else " times")) cs.
Proof.
  intros Hcs. apply Forall_forall. intros c Hc.
  destruct (aggregated_channel _ _ _ _ Hcs Hc) as [Hn _]. simpl.
  unfold updatedLine, shownActionCount. rewrite Hn.
  destruct (Nat.eqb_spec (length (Channel.versions c)) 0) as [->|H0]; simpl; [done|].
  split; [done|].
  destruct (Nat.eqb_spec (length (Channel.versions c)) 1); case_decide; done.
Qed.

Lemma updatedLine_counts_versions_witness :
  ∃ cs, outcome (getChannelsData Example.two_documents None) = Fulfilled cs ∧
        updatedLine <$> cs = ["Document has been updated 3 times";
                              "Document has been updated 0 times"] ∧
        Forall (fun c =>
                  let n := length (Channel.versions c) in
                  shownActionCount c = n ∧
                  updatedLine c = "Document has been updated " +:+ pretty n
                                    +:+ (if decide (n = 1%nat) then " time" else " times")) cs.
Proof.
  eexists. split; [vm_compute; reflexivity|]. split; [reflexivity|].
  apply (updatedLine_counts_versions Example.two_documents None). by vm_compute.
Defined.

End local_views.

(* ===================================================================== *)
(** ** The stored user id *)
(* ===================================================================== *)

Section identity.
Import Handlers.
Implicit Types (localStorage : gmap string string).

Lemma generateUserId_not_empty now random36 : generateUserId now random36 ≠ "".
Proof. unfold generateUserId. by destruct (pretty now +:+ _). Qed.

(** X12.  The user id is created once and then kept: [getUserId] returns
    an id that is not empty and that is the stored one afterwards, also for
    the reader of [api.js]; no other key of the storage changes; a stored
    id that is not empty is returned as it is, with the storage untouched;
    and a second call returns the same id and the same storage, whatever
    the clock and the random source give. *)
Theorem getUserId_creates_once localStorage now random36 :
  let id := (getUserId localStorage now random36).1 in
  let localStorage' := (getUserId localStorage now random36).2 in
  id ≠ "" ∧
  ApiCalls.getUserId localStorage' = Some id ∧
  (∀ key, key ≠ "epimetheus_userId" → localStorage' !! key = localStorage !! key) ∧
  (∀ stored, localStorage !! "epimetheus_userId" = Some stored → stored ≠ "" →
     id = stored ∧ localStorage' = localStorage) ∧
  (∀ now' random36', getUserId localStorage' now' random36' = (id, localStorage')).
Proof.
  unfold getUserId, ApiCalls.getUserId.
  destruct (localStorage !! "epimetheus_userId") as [[|a stored]|] eqn:Hstored; simpl.
  - split; [apply generateUserId_not_empty|]. split; [apply lookup_insert_eq|].
    split; [by intros; apply lookup_insert_ne|]. split; [by intros ? [= <-]|].
    intros now' random36'. rewrite lookup_insert_eq.
    pose proof (generateUserId_not_empty now random36).
    by destruct (generateUserId now random36).
  - split; [done|]. split; [done|]. split; [done|].
    split; [by intros ? [= <-]|]. intros now' random36'. by rewrite Hstored.
  - split; [apply generateUserId_not_empty|]. split; [apply lookup_insert_eq|].
    split; [by intros; apply lookup_insert_ne|]. split; [done|].
    intros now' random36'. rewrite lookup_insert_eq.
    pose proof (generateUserId_not_empty now random36).
    by destruct (generateUserId now random36).
Qed.

Lemma getUserId_creates_once_witness :
  (getUserId {["epimetheus_userId" := "user_1_abc"]} 1767225600000 "0.4fzyo82mvyr").1
  = "user_1_abc" ∧
  (getUserId ∅ 1767225600000 "0.4fzyo82mvyr").1 = "user_1767225600000_4fzyo82mv".
Proof.
  split; [|reflexivity].
  destruct (getUserId_creates_once {["epimetheus_userId" := "user_1_abc"]}
              1767225600000 "0.4fzyo82mvyr") as (_ & _ & _ & Hkept & _).
  by destruct (Hkept "user_1_abc").
Defined.

End identity.

(* ===================================================================== *)
(** ** The search request *)
(* ===================================================================== *)

Section search.
Import Stdlib.Strings.Ascii JSText ApiCalls.
Implicit Types (svc : Service) (query : string) (folderId : option string).


















End search.

(* ===================================================================== *)
(** ** The channel list kept in the browser *)
(* ===================================================================== *)

Section legacy.
Import Legacy.
Implicit Types (channels : list channel) (ch : channel).
Open Scope Z_scope.

Lemma force_update_accounted now ch : accounted_chars (force_update now ch) = accounted_chars ch.
Proof. unfold accounted_chars, force_update. simpl. lia. Qed.

Lemma force_update_counts_down now ch :
  counts_down (default [] (versions ch)) →
  counts_down (default [] (versions (force_update now ch))).
Proof.
  unfold force_update, next_number. simpl.
  destruct (versions ch) as [[|v vs]|]; simpl; [done| |done].
  intros [Hv Hvs]. split; [lia|done].
Qed.

(** X15.  A simulated force update keeps the channels, their ids and their
    order; a channel with another id is untouched; a channel with that id
    gains exactly one version, has no pending characters left and one more
    message; and for every channel the characters accounted for, pending
    ones and those of the versions together, are the same as before. *)
Theorem legacy_force_update_conserves (clock : nat → Z) (channelId : Z) channels :
  let channels' := handleForceUpdate clock channelId channels in
  length channels' = length channels ∧
  id <$> channels' = id <$> channels ∧
  accounted_chars <$> channels' = accounted_chars <$> channels ∧
  (∀ i ch, channels !! i = Some ch → id ch ≠ channelId → channels' !! i = Some ch) ∧
  (∀ i ch, channels !! i = Some ch → id ch = channelId →
     ∃ ch' v, channels' !! i = Some ch' ∧
       versions ch' = Some (v :: default [] (versions ch)) ∧
       charsAdded v = currentChars ch ∧ timestamp v = clock i ∧
       currentChars ch' = 0 ∧ messageCount ch' = messageCount ch + 1).
Proof.
  intros channels'. unfold channels', handleForceUpdate.
  split; [apply length_imap|]. split; [|split; [|split]].
  - apply list_eq. intros i. rewrite !list_lookup_fmap, list_lookup_imap.
    destruct (channels !! i) as [ch|]; [|done]. simpl. by case_decide.
  - apply list_eq. intros i. rewrite !list_lookup_fmap, list_lookup_imap.
    destruct (channels !! i) as [ch|]; [|done]. simpl.
    case_decide; [by rewrite force_update_accounted | done].
  - intros i ch Hch Hid. rewrite list_lookup_imap, Hch. simpl. by rewrite decide_False.
  - intros i ch Hch Hid. rewrite list_lookup_imap, Hch. simpl. rewrite decide_True by done.
    eexists _, _. split; [reflexivity|]. by simpl.
Qed.

Lemma legacy_force_update_conserves_witness :
  accounted_chars <$> handleForceUpdate (fun _ => 1767225600000) 1
                        (defaultChannels (fun _ => 1767225600000))
  = [12984; 6842] ∧
  length (handleForceUpdate (fun _ => 1767225600000) 1
            (defaultChannels (fun _ => 1767225600000))) = 2%nat.
Proof.
  destruct (legacy_force_update_conserves (fun _ => 1767225600000) 1
              (defaultChannels (fun _ => 1767225600000))) as (Hlen & _ & Hacc & _).
  split; [rewrite Hacc; reflexivity | rewrite Hlen; reflexivity].
Defined.


Lemma perform_counts_down (a : action) channels :
  Forall (fun ch => counts_down (default [] (versions ch))) channels →
  Forall (fun ch => counts_down (default [] (versions ch))) (perform a channels).
Proof.
  intros H. destruct a as [clock channelId | now thr data | confirmed channelId]; simpl.
  - unfold handleForceUpdate. apply Forall_forall. intros ch' Hch'.
    apply elem_of_lookup_imap in Hch' as (i & ch & -> & Hch).
    rewrite Forall_forall in H. specialize (H ch (list_elem_of_lookup_2 _ _ _ Hch)).
    case_decide; [by apply force_update_counts_down | done].
  - unfold handleAddChannel. apply Forall_app. split; [done|]. by repeat constructor.
  - unfold handleDeleteChannel. destruct confirmed; [|done].
    rewrite Forall_forall in *. intros ch Hch.
    apply list_elem_of_filter in Hch as [_ Hch]. by apply H.
Qed.

(** X16.  User actions keep the version numbering: if in every channel the
    version numbers count down to 1, newest first, then they still do after
    any sequence of force updates, additions and removals, and the number
    of the newest version is the number of versions.  The demo data
    starts that way. *)
Theorem legacy_version_numbers_count_down (actions : list action) channels :
  Forall (fun ch => counts_down (default [] (versions ch))) channels →
  Forall (fun ch =>
            counts_down (default [] (versions ch)) ∧
            (∀ v, head (default [] (versions ch)) = Some v →
                  version v = Z.of_nat (length (default [] (versions ch)))))
         (run actions channels).
Proof.
  intros H0.
  assert (Hinv : Forall (fun ch => counts_down (default [] (versions ch)))
                        (run actions channels)).
  { unfold run. revert channels H0.
    induction actions as [|a actions IH]; intros channels H; simpl; [done|].
    apply IH. by apply perform_counts_down. }
  eapply Forall_impl; [exact Hinv|]. intros ch Hch. split; [done|].
  intros v. cbv beta in Hch. revert Hch.
  destruct (versions ch) as [[|v' vs]|]; simpl; [done| |done].
  intros [Hv' _] [= ->]. rewrite Hv'. lia.
Qed.

Lemma legacy_version_numbers_count_down_witness :
  Forall (fun ch => counts_down (default [] (versions ch)))
         (defaultChannels (fun _ => 1767225600000)) ∧
  Forall (fun ch =>
            counts_down (default [] (versions ch)) ∧
            (∀ v, head (default [] (versions ch)) = Some v →
                  version v = Z.of_nat (length (default [] (versions ch)))))
         (run [ForceUpdate (fun _ => 1767225600000) 1; DeleteChannel true 2;
               ForceUpdate (fun _ => 1767225600001) 1]
              (defaultChannels (fun _ => 1767225600000))).
Proof.
  assert (H : Forall (fun ch => counts_down (default [] (versions ch)))
                     (defaultChannels (fun _ => 1767225600000)))
    by (repeat constructor).
  split; [exact H|]. by apply legacy_version_numbers_count_down.
Defined.

(** X17.  Removing the channel that was just added gives back the list as
    it was, provided the clock reading used as its id is the id of no
    other channel; in general the removal drops every channel with that
    id, the older ones too. *)
Theorem legacy_add_then_delete (now defaultThreshold : Z) (data : formData) channels :
  handleDeleteChannel true now (handleAddChannel now defaultThreshold data channels)
  = filter (fun ch => id ch ≠ now) channels ∧
  (Forall (fun ch => id ch ≠ now) channels →
   handleDeleteChannel true now (handleAddChannel now defaultThreshold data channels)
   = channels) ∧
  handleDeleteChannel false now (handleAddChannel now defaultThreshold data channels)
  = handleAddChannel now defaultThreshold data channels.
Proof.
  assert (H : handleDeleteChannel true now
                (handleAddChannel now defaultThreshold data channels)
              = filter (fun ch => id ch ≠ now) channels).
  { unfold handleDeleteChannel, handleAddChannel. rewrite filter_app.
    rewrite filter_cons, decide_False by (simpl; tauto). by rewrite filter_nil, app_nil_r. }
  split; [exact H|]. split; [|done].
  intros Hfresh. rewrite H. by apply filter_all.
Qed.

Lemma legacy_add_then_delete_witness :
  Forall (fun ch => id ch ≠ 1767225600000) (defaultChannels (fun _ => 1767225600000)) ∧
  handleDeleteChannel true 1767225600000
    (handleAddChannel 1767225600000 10000
       {| channelName := "#design"; form_docUrl := "https://docs.google.com/document/d/x";
          form_slackChannelId := None; form_threshold := 5000 |}
       (defaultChannels (fun _ => 1767225600000)))
  = defaultChannels (fun _ => 1767225600000).
Proof.
  assert (H : Forall (fun ch => id ch ≠ 1767225600000)
                     (defaultChannels (fun _ => 1767225600000)))
    by (repeat constructor; done).
  split; [exact H|].
  by apply (legacy_add_then_delete 1767225600000 10000).
Defined.

End legacy.

(* ===================================================================== *)
(** ** More on the aggregation: requests, version numbers, metadata *)
(* ===================================================================== *)

Section aggregation_more.
Import Api.
Implicit Types (env : Env) (folderId docId : option string).

Lemma soft_get_requests_list {A} (endpoint : string → result (response A)) url msg label
    (dflt : A) :
  requests "GET"
    (trace (try_catch
              (let* response := fetch endpoint "GET" url in
               match response with
               | NotOk _ => throw (Error msg)
               | Ok json => settle json
               end)
              (fun error => console_error label error ;; ret dflt)))
  = [url].
Proof.
  rewrite trace_try_catch, outcome_bind, trace_bind. simpl.
  destruct (endpoint url) as [[[a|e]|j]|e]; reflexivity.
Qed.

Lemma document_task_requests env mm i doc :
  requests "GET" (trace (document_task env mm i doc))
  = [API_BASE_URL env +:+ "/versions/" +:+ toString (docId_of doc)].
Proof.
  unfold document_task. rewrite trace_bind, fetched_versions_outcome, trace_bind.
  fold (docId_of doc).
  assert (Hv : requests "GET" (trace (fetched_versions env (docId_of doc)))
               = [API_BASE_URL env +:+ "/versions/" +:+ toString (docId_of doc)]).
  { unfold fetched_versions, getVersionHistory.
    rewrite trace_try_catch, !outcome_bind, !trace_bind, outcome_try_catch, trace_try_catch,
      outcome_bind, trace_bind. simpl.
    destruct (GET_versions env _) as [[[r|e]|j]|e]; reflexivity. }
  destruct (outcome (settle _)) as [name|err]; simpl; rewrite ?app_nil_r; exact Hv.
Qed.

Lemma requests_concat method (trs : list (list event)) :
  requests method (concat trs) = concat (requests method <$> trs).
Proof.
  induction trs as [|tr trs IH]; [done|]. simpl. by rewrite requests_app, IH.
Qed.

(** X18.  One aggregation sends, in this order, one GET request for the
    document list, one for the metadata list, both with the folder when one
    is given, and one for the version history of each listed document,
    addressed by the document's id or, without one, by the text
    ["undefined"]; it sends nothing else, also when it rejects. *)
Theorem getChannelsData_requests env folderId :
  let folder := if truthy folderId then "?folder_id=" +:+ toString folderId else "" in
  requests "GET" (trace (getChannelsData env folderId))
  = [API_BASE_URL env +:+ "/documents" +:+ folder;
     API_BASE_URL env +:+ "/documents/metadata/all" +:+ folder]
    ++ ((fun d => API_BASE_URL env +:+ "/versions/" +:+ toString (docId_of d))
          <$> documents_of env folderId) ∧
  requests "POST" (trace (getChannelsData env folderId)) = [].
Proof.
  intros folder. split; [|apply requests_quiet, getChannelsData_quiet].
  assert (Htasks : ∀ mm D,
            requests "GET" (concat (trace <$> imap (document_task env mm) D))
            = (fun d => API_BASE_URL env +:+ "/versions/" +:+ toString (docId_of d)) <$> D).
  { intros mm D.
    assert (Hg : ∀ (g : nat → Doc.t → IO Channel.t),
              (∀ i d, requests "GET" (trace (g i d))
                      = [API_BASE_URL env +:+ "/versions/" +:+ toString (docId_of d)]) →
              requests "GET" (concat (trace <$> imap g D))
              = (fun d => API_BASE_URL env +:+ "/versions/" +:+ toString (docId_of d)) <$> D).
    { induction D as [|d D IH]; intros g Hg; [done|].
      simpl. rewrite requests_app, Hg. simpl. f_equal. apply IH. intros i d'. apply Hg. }
    apply Hg. intros i d. apply document_task_requests. }
  assert (Hd : requests "GET" (trace (getDocuments env folderId))
               = [API_BASE_URL env +:+ "/documents" +:+ folder]).
  { unfold getDocuments. rewrite soft_get_requests_list. unfold folder.
    by destruct (truthy folderId). }
  assert (Hm : requests "GET" (trace (getAllMetadata env folderId))
               = [API_BASE_URL env +:+ "/documents/metadata/all" +:+ folder]).
  { unfold getAllMetadata. rewrite soft_get_requests_list. unfold folder.
    by destruct (truthy folderId). }
  unfold getChannelsData, documents_of, metadata_of.
  destruct (getDocuments_outcome env folderId) as (u1 & _ & H1).
  destruct (getAllMetadata_outcome env folderId) as (u2 & _ & H2).
  rewrite trace_try_catch, outcome_bind, trace_bind. unfold Promise_all2. simpl.
  rewrite H1, H2. simpl.
  match goal with |- context [all_outcomes ?l] => destruct (all_outcomes l) end;
    rewrite !requests_app, Hd, Hm, Htasks; simpl; by rewrite ?app_nil_r.
Qed.

Lemma getChannelsData_requests_witness :
  requests "GET" (trace (getChannelsData Example.two_documents (Some "f1")))
  = ["/api/v1/documents?folder_id=f1"; "/api/v1/documents/metadata/all?folder_id=f1";
     "/api/v1/versions/1AbCdEfGhIjKlMn"; "/api/v1/versions/2ZyXwVuTsRqPoNm"].
Proof.
  destruct (getChannelsData_requests Example.two_documents (Some "f1")) as [Hget _].
  rewrite Hget. reflexivity.
Defined.


Lemma aggregated_channel_versions env folderId cs i d c :
  outcome (getChannelsData env folderId) = Fulfilled cs →
  documents_of env folderId !! i = Some d →
  cs !! i = Some c →
  Channel.id c = docId_of d ∧
  Channel.versions c
  = match outcome (getVersionHistory env (docId_of d)) with
    | Fulfilled r => imap version_entry (default [] (versions r))
    | Rejected _ => []
    end.
Proof.
  intros Hcs Hd Hc.
  destruct (getChannelsData_lookup _ _ _ Hcs) as [_ Hnth].
  specialize (Hnth i). rewrite Hd, Hc in Hnth.
  rewrite document_task_outcome, fetched_versions_outcome in Hnth.
  destruct (resolved_name _ _ _); [|done]. by injection Hnth as <-.
Qed.

(** X19.  The versions of a Channel follow the fetched history record by
    record: as many, in the same order, numbered 1, 2, 3, ... by position,
    each with the token and the creation time of its record and with the
    added characters of the record, 0 when the record does not say. *)
Theorem channel_versions_follow_the_history env folderId cs i d c r :
  outcome (getChannelsData env folderId) = Fulfilled cs →
  documents_of env folderId !! i = Some d →
  cs !! i = Some c →
  outcome (getVersionHistory env (Channel.id c)) = Fulfilled r →
  let records := default [] (versions r) in
  length (Channel.versions c) = length records ∧
  ∀ k record, records !! k = Some record →
    ∃ v, Channel.versions c !! k = Some v ∧
         Version.version v = (Z.of_nat k + 1)%Z ∧
         Version.versionId v = VersionRecord.version_id record ∧
         Version.timestamp v = VersionRecord.created_at record ∧
         Version.charsAdded v
         = default 0%Z (VersionRecord.metadata record ≫= VersionRecord.chars_added).
Proof.
  intros Hcs Hd Hc Hr records.
  destruct (aggregated_channel_versions _ _ _ _ _ _ Hcs Hd Hc) as [Hid Hv].
  rewrite Hid in Hr. rewrite Hr in Hv. rewrite Hv. fold records.
  split; [apply length_imap|].
  intros k record Hk. rewrite list_lookup_imap, Hk. simpl.
  eexists. split; [reflexivity|]. simpl. repeat split.
  by destruct (VersionRecord.metadata record).
Qed.

Lemma channel_versions_follow_the_history_witness :
  ∃ cs c,
    outcome (getChannelsData Example.two_documents None) = Fulfilled cs ∧
    cs !! 0%nat = Some c ∧
    Version.version <$> Channel.versions c = [1; 2; 3]%Z ∧
    length (Channel.versions c) = 3%nat.
Proof.
  eexists _, _. split; [vm_compute; reflexivity|].
  match goal with |- ?l !! _ = _ ∧ _ => set (cs := l) end.
  split; [reflexivity|]. split; [reflexivity|].
  match goal with |- length (Channel.versions ?x) = _ => set (c := x) end.
  destruct (channel_versions_follow_the_history Example.two_documents None cs 0%nat
              Example.roadmap c Example.roadmap_history) as [-> _]; by vm_compute.
Defined.

Lemma Object_prototype_Method (k : string) (v : Metadata.t) :
  MetadataMap.Object_prototype k = Some v →
  ∃ f, v = Metadata.Method f ∧ f ≠ "" ∧ k ≠ "__proto__" ∧
       ∀ meta, MetadataMap.field meta k = None.
Proof.
  intros H.
  assert (Hk : In k ["constructor"; "hasOwnProperty"; "isPrototypeOf"; "propertyIsEnumerable";
                     "toLocaleString"; "toString"; "valueOf";
                     "__defineGetter__"; "__defineSetter__";
                     "__lookupGetter__"; "__lookupSetter__"]).
  { unfold MetadataMap.Object_prototype in H.
    repeat case_decide; [by left | right | done]. by apply list_elem_of_In. }
  simpl in Hk.
  repeat (destruct Hk as [<-|Hk];
          [injection H as <-; eexists; split; [reflexivity|]; by repeat split|]).
  destruct Hk.
Qed.

(** X20.  When the metadata list has several records for the id of a
    Channel, the Channel carries the last of them, and its Slack channel id
    comes from that record.  When the list has none, the Channel has no
    Slack channel id, and (no record being keyed ["__proto__"]) it carries
    what a plain object has under that key: the inherited function when the
    id is the key of one, [Object.prototype] when the id is ["__proto__"],
    and the empty record otherwise. *)
Theorem channel_metadata_last_record_wins env folderId cs i d c :
  outcome (getChannelsData env folderId) = Fulfilled cs →
  documents_of env folderId !! i = Some d →
  cs !! i = Some c →
  let key := toString (Channel.id c) in
  (∀ M1 m M2,
     metadata_of env folderId = M1 ++ m :: M2 →
     toString (Meta.doc_id m) = key →
     (∀ m', m' ∈ M2 → toString (Meta.doc_id m') ≠ key) →
     Channel.metadata c = Metadata.Plain m ∧ Channel.slackChannelId c = slackChannelId m) ∧
  ((∀ m, m ∈ metadata_of env folderId → toString (Meta.doc_id m) ≠ key) →
   Channel.slackChannelId c = "" ∧
   ((∀ m, m ∈ metadata_of env folderId → toString (Meta.doc_id m) ≠ "__proto__") →
    (∀ v, MetadataMap.Object_prototype key = Some v → Channel.metadata c = v) ∧
    (key = "__proto__" → Channel.metadata c = Metadata.ObjectPrototype) ∧
    (MetadataMap.Object_prototype key = None → key ≠ "__proto__" →
     Channel.metadata c = Metadata.Plain Meta.empty))).
Proof.
  intros Hcs Hd Hc key.
  destruct (channel_derived_fields _ _ _ _ _ _ Hcs Hd Hc) as (Hm & Hs & _).
  destruct (aggregated_channel_versions _ _ _ _ _ _ Hcs Hd Hc) as [Hid _].
  rewrite <- Hid in Hm. fold key in Hm. split.
  - intros M1 m M2 HM Hkey Hlast. rewrite Hs, Hm, HM, <- Hkey.
    rewrite metadata_map_get_last; [done|]. intros m' Hm'. rewrite Hkey. by apply Hlast.
  - intros Hnone. split.
    + rewrite Hs, Hm.
      destruct (metadata_map_name_inherited _ _ Hnone) as [-> | ->]; [|done].
      destruct (MetadataMap.Object_prototype key) as [v|] eqn:Hv; [|done].
      by destruct (Object_prototype_Method _ _ Hv) as (f & -> & _).
    + intros Hproto. rewrite Hm, metadata_map_get_inherited by done.
      split; [|split].
      * intros v Hv. destruct (Object_prototype_Method _ _ Hv) as (f & -> & _ & Hk & _).
        rewrite decide_False by done. by rewrite Hv.
      * intros Hk. by rewrite decide_True.
      * intros Hv Hk. rewrite decide_False by done. by rewrite Hv.
Qed.

Lemma channel_metadata_last_record_wins_witness :
  ∃ cs c,
    outcome (getChannelsData
               (with_metadata Example.two_documents
                  (fun _ => Example.answer
                     {| meta_documents :=
                          Some [Example.roadmap_meta;
                                Meta.mk (Some "1AbCdEfGhIjKlMn") (Some "Roadmap 2")
                                        (Some ["slack:C999"]) None];
                        meta_count := Some 2%Z |}))
               None) = Fulfilled cs ∧
    cs !! 0%nat = Some c ∧
    Channel.name c = "Roadmap 2" ∧
    Channel.metadata c
    = Metadata.Plain (Meta.mk (Some "1AbCdEfGhIjKlMn") (Some "Roadmap 2")
                              (Some ["slack:C999"]) None) ∧
    Channel.slackChannelId c = "C999".
Proof.
  eexists _, _. split; [vm_compute; reflexivity|].
  match goal with |- ?l !! _ = _ ∧ _ => set (cs := l) end.
  split; [reflexivity|]. split; [reflexivity|].
  match goal with |- Channel.metadata ?x = _ ∧ _ => set (c := x) end.
  destruct (channel_metadata_last_record_wins
              (with_metadata Example.two_documents
                 (fun _ => Example.answer
                    {| meta_documents :=
                         Some [Example.roadmap_meta;
                               Meta.mk (Some "1AbCdEfGhIjKlMn") (Some "Roadmap 2")
                                       (Some ["slack:C999"]) None];
                       meta_count := Some 2%Z |}))
              None cs 0%nat Example.roadmap c) as [Hlast _];
    [by vm_compute | reflexivity | reflexivity |].
  destruct (Hlast [Example.roadmap_meta]
              (Meta.mk (Some "1AbCdEfGhIjKlMn") (Some "Roadmap 2") (Some ["slack:C999"]) None)
              []) as [-> ->]; [reflexivity | reflexivity | |split; reflexivity].
  intros m' Hm'. by apply elem_of_nil in Hm'.
Defined.

(** X21.  The name of a Channel, level by level.  The override is the
    name of the last record of the metadata list that is keyed by the
    Channel's id, when that name is present and not empty.  Without such a
    name, and also when the list has no record for the id and the id is not
    the key of a function that every object inherits, the name is the
    document's own when that is present and not empty, and otherwise
    ["Document "] followed by the first 8 code units of the id.  When the
    list has no record for the id and the id is the key of an inherited
    function, the name is the name of that function. *)
Theorem channel_name_resolution env folderId cs i d c :
  outcome (getChannelsData env folderId) = Fulfilled cs →
  documents_of env folderId !! i = Some d →
  cs !! i = Some c →
  let key := toString (Channel.id c) in
  let own_name_or_placeholder :=
    (∀ n, Doc.name d = Some n → n ≠ "" → Channel.name c = n) ∧
    (Doc.name d = None ∨ Doc.name d = Some "" →
       ∃ s, Channel.id c = Some s ∧ Channel.name c = "Document " +:+ substring0 8 s) in
  (∀ M1 m M2,
     metadata_of env folderId = M1 ++ m :: M2 →
     toString (Meta.doc_id m) = key →
     (∀ m', m' ∈ M2 → toString (Meta.doc_id m') ≠ key) →
     (∀ n, Meta.name m = Some n → n ≠ "" → Channel.name c = n) ∧
     (Meta.name m = None ∨ Meta.name m = Some "" → own_name_or_placeholder)) ∧
  ((∀ m, m ∈ metadata_of env folderId → toString (Meta.doc_id m) ≠ key) →
   (MetadataMap.Object_prototype key = None → own_name_or_placeholder) ∧
   (∀ f, MetadataMap.Object_prototype key = Some (Metadata.Method f) → Channel.name c = f)).
Proof.
  intros Hcs Hd Hc key own.
  destruct (aggregated_channel_versions _ _ _ _ _ _ Hcs Hd Hc) as [Hid _].
  destruct (getChannelsData_lookup _ _ _ Hcs) as [_ Hnth].
  specialize (Hnth i). rewrite Hd, Hc in Hnth.
  rewrite document_task_outcome, fetched_versions_outcome in Hnth.
  destruct (resolved_name _ _ _) as [n|] eqn:Hn; [|done].
  injection Hnth as <-. simpl in key, own, Hid. subst own. simpl.
  apply resolved_name_cases in Hn as [H1 H2]. fold key in H1, H2.
  split.
  - intros M1 m M2 HM Hkey Hlast.
    assert (Hget : MetadataMap.get (metadata_map (metadata_of env folderId)) key
                   = Some (Metadata.Plain m)).
    { rewrite HM, <- Hkey. apply metadata_map_get_last.
      intros m' Hm'. rewrite Hkey. by apply Hlast. }
    rewrite Hget in H1, H2. split; [exact H1 | exact H2].
  - intros Hnone. split.
    + intros Hv. apply H2. left.
      destruct (metadata_map_name_inherited _ _ Hnone) as [-> | ->]; [|done].
      by rewrite Hv.
    + intros f Hf.
      destruct (Object_prototype_Method _ _ Hf) as (f' & [= <-] & Hne & Hk & Hfield).
      apply H1; [|done].
      unfold MetadataMap.get.
      rewrite metadata_map_own_None, decide_False by done.
      destruct (MetadataMap.prototype _) as [p|]; simpl; [rewrite Hfield|]; by rewrite Hf.
Qed.

Lemma channel_name_resolution_witness :
  ∃ cs c0 c1,
    outcome (getChannelsData Example.two_documents None) = Fulfilled cs ∧
    cs !! 0%nat = Some c0 ∧ cs !! 1%nat = Some c1 ∧
    Doc.name Example.roadmap = Some "Roadmap" ∧
    Channel.name c0 = "Team roadmap" ∧
    Channel.name c1 = "Document 2ZyXwVuT".
Proof.
  eexists _, _, _. split; [vm_compute; reflexivity|].
  match goal with |- ?l !! _ = _ ∧ _ => set (cs := l) end.
  split; [reflexivity|]. split; [reflexivity|]. split; [reflexivity|].
  match goal with |- Channel.name ?x = _ ∧ Channel.name ?y = _ => set (c0 := x); set (c1 := y) end.
  split.
  - destruct (channel_name_resolution Example.two_documents None cs 0%nat Example.roadmap c0)
      as [Hlast _]; [by vm_compute | reflexivity | reflexivity |].
    destruct (Hlast [] Example.roadmap_meta []) as [Hname _];
      [reflexivity | reflexivity | |].
    + intros m' Hm'. by apply elem_of_nil in Hm'.
    + by apply Hname.
  - destruct (channel_name_resolution Example.two_documents None cs 1%nat Example.notes c1)
      as [_ Hnone]; [by vm_compute | reflexivity | reflexivity |].
    destruct Hnone as [Hplain _].
    + intros m Hm. vm_compute in Hm. apply list_elem_of_singleton in Hm as ->. by vm_compute.
    + destruct Hplain as [_ Hp]; [reflexivity|].
      destruct (Hp (or_introl eq_refl)) as (s & Hs & ->).
      injection Hs as <-. reflexivity.
Defined.

End aggregation_more.
